(** * Pimax-OpenXR: system acquisition, properties and projection geometry

    A shallow embedding of [src/pimax-openxr/system.cpp] and
    [src/pimax-openxr/companion.cpp].

    - C++ [float] values are kept abstract: the class [FloatOps] lists the
      operations the two files apply to them, one field per C++ operator or
      library call, with no law assumed.  Every identity proved below is
      therefore an identity between the expressions the code evaluates,
      whatever the rounding of the machine.
    - The vendor SDK (PVR) is an external collaborator.  Its math helpers
      ([PVR::Quatf::Angle], [PVR::DegreeToRad], ...) are fields of the class
      [PvrHeaders]; the answers of its service calls during one API call are
      the fields of the record [PvrService].
    - Trace logging and telemetry write nothing the runtime reads back and
      are left out. *)

From Stdlib Require Import ZArith NArith List Bool String Lia Reals Lra.
From stdpp Require Import base list.

Local Open Scope Z_scope.

(* ===================================================================== *)
(** ** Floating point *)
(* ===================================================================== *)

(** The operations of C++ [float] used by the sources. *)
Class FloatOps : Type := {
  float : Type;
  fzero : float;                      (* 0.f, and the 0 a float is tested against *)
  fone : float;                       (* 1.f *)
  ftwo : float;                       (* the int 2 converted to float *)
  fsix : float;                       (* 6.f *)
  fadd : float -> float -> float;     (* a + b *)
  fsub : float -> float -> float;     (* a - b *)
  fmul : float -> float -> float;     (* a * b *)
  fdiv : float -> float -> float;     (* a / b *)
  fneg : float -> float;              (* -a *)
  feqb : float -> float -> bool;      (* a == b *)
  atanf : float -> float;             (* atan(a) *)
  tanf : float -> float               (* tan(a) *)
}.

(** Conversion of a float to [bool], as in [if (m_cantingAngle)] and
    [cantingAngle && ...]: false exactly when the value compares equal to
    zero. *)
Definition float_to_bool `{FloatOps} (x : float) : bool := negb (feqb x fzero).

(* ===================================================================== *)
(** ** SDK and OpenXR data *)
(* ===================================================================== *)

Section Geometry.
Context {FO : FloatOps}.

(** [pvrQuatf] / [PVR::Quatf]. *)
Record Quatf : Type := mkQuatf { qx : float; qy : float; qz : float; qw : float }.

(** [PVR::Quatf::Identity()]. *)
Definition Quatf_Identity : Quatf := mkQuatf fzero fzero fzero fone.

Record pvrVector3f : Type := mkVector3f { vx : float; vy : float; vz : float }.

Record pvrPosef : Type := mkPosef { Orientation : Quatf; Position : pvrVector3f }.

(** [pvrFovPort]: tangents of the four half-angles. *)
Record pvrFovPort : Type := mkFovPort {
  UpTan : float; DownTan : float; LeftTan : float; RightTan : float
}.

(** [pvrEyeRenderInfo], the fields the sources read or write. *)
Record pvrEyeRenderInfo : Type := mkEyeRenderInfo {
  Fov : pvrFovPort;
  HmdToEyePose : pvrPosef
}.

(** [XrFovf]. *)
Record XrFovf : Type := mkXrFovf {
  angleLeft : float; angleRight : float; angleUp : float; angleDown : float
}.

(** What the sources take from the SDK's headers, which are not part of
    the repository: the math helpers and one constant. *)
Class PvrHeaders : Type := {
  Quatf_Angle : Quatf -> Quatf -> float;   (* PVR::Quatf{a}.Angle(b) *)
  DegreeToRad : float -> float;            (* PVR::DegreeToRad *)
  RadToDegree : float -> float;            (* PVR::RadToDegree *)
  pvrMaxLayerCount : Z                     (* pvrMaxLayerCount *)
}.

(** A C array [T a[xr::StereoView::Count]]: exactly two cells. *)
Record Stereo (A : Type) : Type := mkStereo { view0 : A; view1 : A }.
Arguments mkStereo {A} _ _.
Arguments view0 {A} _.
Arguments view1 {A} _.

Definition StereoView_Count : nat := 2.

(** [a[i]] and [a[i] = v].  The loops below stop at
    [StereoView_Count], so an index past 1 is never used; there [sget]
    answers the last cell and [sset] writes nothing. *)
Definition sget {A} (i : nat) (a : Stereo A) : A :=
  match i with O => view0 a | _ => view1 a end.

Definition sset {A} (i : nat) (v : A) (a : Stereo A) : Stereo A :=
  match i with
  | O => mkStereo v (view1 a)
  | S O => mkStereo (view0 a) v
  | _ => a
  end.

(** [for (uint32_t i = lo; i < lo + n; i++) body]. *)
Fixpoint for_loop {St : Type} (body : nat -> St -> St) (lo n : nat) (s : St) : St :=
  match n with
  | O => s
  | S n' => for_loop body (S lo) n' (body lo s)
  end.

Definition set_Orientation (q : Quatf) (e : pvrEyeRenderInfo) : pvrEyeRenderInfo :=
  mkEyeRenderInfo (Fov e) (mkPosef q (Position (HmdToEyePose e))).

Definition eyeOrientation (e : pvrEyeRenderInfo) : Quatf :=
  Orientation (HmdToEyePose e).

End Geometry.

Arguments mkStereo {A} _ _.
Arguments view0 {A} _.
Arguments view1 {A} _.

(* ===================================================================== *)
(** ** Result codes, structure tags and handles *)
(* ===================================================================== *)

(** [XrResult], the codes the two files return.  [XR_ERROR_RUNTIME_FAILURE]
    is what the caller sees when [CHECK_PVRCMD] gives up (see [Exit]). *)
Inductive XrResult : Set :=
| XR_SUCCESS
| XR_ERROR_VALIDATION_FAILURE
| XR_ERROR_RUNTIME_FAILURE
| XR_ERROR_HANDLE_INVALID
| XR_ERROR_SIZE_INSUFFICIENT
| XR_ERROR_SYSTEM_INVALID
| XR_ERROR_FORM_FACTOR_UNSUPPORTED
| XR_ERROR_FORM_FACTOR_UNAVAILABLE
| XR_ERROR_VIEW_CONFIGURATION_TYPE_UNSUPPORTED.

(** [pvrResult]: success, the code of an unreachable service, and every
    other failure code of the SDK. *)
Inductive pvrResult : Set :=
| pvr_success
| pvr_rpc_failed
| pvr_failure (code : Z).

Definition pvrResult_eqb (a b : pvrResult) : bool :=
  match a, b with
  | pvr_success, pvr_success => true
  | pvr_rpc_failed, pvr_rpc_failed => true
  | pvr_failure x, pvr_failure y => Z.eqb x y
  | _, _ => false
  end.

(** [XrStructureType]: the tags the file compares against, and any other. *)
Inductive XrStructureType : Set :=
| XR_TYPE_SYSTEM_GET_INFO
| XR_TYPE_SYSTEM_PROPERTIES
| XR_TYPE_SYSTEM_HAND_TRACKING_PROPERTIES_EXT
| XR_TYPE_OTHER (tag : Z).

Definition XrStructureType_eqb (a b : XrStructureType) : bool :=
  match a, b with
  | XR_TYPE_SYSTEM_GET_INFO, XR_TYPE_SYSTEM_GET_INFO => true
  | XR_TYPE_SYSTEM_PROPERTIES, XR_TYPE_SYSTEM_PROPERTIES => true
  | XR_TYPE_SYSTEM_HAND_TRACKING_PROPERTIES_EXT,
    XR_TYPE_SYSTEM_HAND_TRACKING_PROPERTIES_EXT => true
  | XR_TYPE_OTHER x, XR_TYPE_OTHER y => Z.eqb x y
  | _, _ => false
  end.

Inductive XrFormFactor : Set :=
| XR_FORM_FACTOR_HEAD_MOUNTED_DISPLAY
| XR_FORM_FACTOR_HANDHELD_DISPLAY
| XR_FORM_FACTOR_OTHER (v : Z).

Definition is_hmd (f : XrFormFactor) : bool :=
  match f with XR_FORM_FACTOR_HEAD_MOUNTED_DISPLAY => true | _ => false end.

Inductive XrViewConfigurationType : Set :=
| XR_VIEW_CONFIGURATION_TYPE_PRIMARY_MONO
| XR_VIEW_CONFIGURATION_TYPE_PRIMARY_STEREO
| XR_VIEW_CONFIGURATION_TYPE_OTHER (v : Z).

Definition is_primary_stereo (t : XrViewConfigurationType) : bool :=
  match t with XR_VIEW_CONFIGURATION_TYPE_PRIMARY_STEREO => true | _ => false end.

Inductive XrEnvironmentBlendMode : Set :=
| XR_ENVIRONMENT_BLEND_MODE_OPAQUE
| XR_ENVIRONMENT_BLEND_MODE_ADDITIVE
| XR_ENVIRONMENT_BLEND_MODE_ALPHA_BLEND.

(** [XrInstance] and [XrSystemId] are 64-bit values; the runtime knows the
    single value 1 of each. *)
Definition XrInstance : Set := N.
Definition XrSystemId : Set := N.

(** [XrBool32]. *)
Definition XrBool32 : Set := Z.
Definition XR_TRUE : XrBool32 := 1.
Definition XR_FALSE : XrBool32 := 0.

(** [pvrBool] fields are integers, read through [!!x] and [x && y]. *)
Definition pvrBool : Set := Z.
Definition truthy (x : Z) : bool := negb (Z.eqb x 0).

(** [pvrSessionHandle]: a pointer; 0 is the null handle. *)
Definition pvrSessionHandle : Set := Z.

Record pvrSizei : Set := mkSizei { size_w : Z; size_h : Z }.

(** [pvrHmdInfo]. *)
Record pvrHmdInfo : Set := mkHmdInfo {
  VendorId : Z;
  ProductId : Z;
  Manufacturer : string;
  ProductName : string;
  SerialNumber : string;
  FirmwareMinor : Z;
  FirmwareMajor : Z;
  Resolution : pvrSizei
}.

(** [pvrHmdStatus]. *)
Record pvrHmdStatus : Set := mkHmdStatus {
  ServiceReady : pvrBool;
  HmdPresent : pvrBool;
  HmdMounted : pvrBool;
  IsVisible : pvrBool;
  DisplayLost : pvrBool;
  ShouldQuit : pvrBool
}.

(* ===================================================================== *)
(** ** The runtime object *)
(* ===================================================================== *)

Section Runtime.
Context {FO : FloatOps} {PH : PvrHeaders}.

(** The members of [OpenXrRuntime] that [system.cpp] reads or writes. *)
Record OpenXrRuntime : Type := mkRuntime {
  m_instanceCreated : bool;
  m_systemCreated : bool;
  m_pvrSession : pvrSessionHandle;
  m_cachedHmdInfo : pvrHmdInfo;
  m_loggedProductName : bool;
  m_floorHeight : float;
  m_cachedEyeInfo : Stereo pvrEyeRenderInfo;
  m_cachedEyeFov : Stereo XrFovf;
  m_cantingAngle : float;
  m_useParallelProjection : bool;
  has_XR_EXT_hand_tracking : bool
}.

Definition set_m_systemCreated (v : bool) (rt : OpenXrRuntime) : OpenXrRuntime :=
  mkRuntime (m_instanceCreated rt) v (m_pvrSession rt) (m_cachedHmdInfo rt)
    (m_loggedProductName rt) (m_floorHeight rt) (m_cachedEyeInfo rt)
    (m_cachedEyeFov rt) (m_cantingAngle rt) (m_useParallelProjection rt)
    (has_XR_EXT_hand_tracking rt).

Definition set_m_pvrSession (v : pvrSessionHandle) (rt : OpenXrRuntime) : OpenXrRuntime :=
  mkRuntime (m_instanceCreated rt) (m_systemCreated rt) v (m_cachedHmdInfo rt)
    (m_loggedProductName rt) (m_floorHeight rt) (m_cachedEyeInfo rt)
    (m_cachedEyeFov rt) (m_cantingAngle rt) (m_useParallelProjection rt)
    (has_XR_EXT_hand_tracking rt).

Definition set_m_cachedHmdInfo (v : pvrHmdInfo) (rt : OpenXrRuntime) : OpenXrRuntime :=
  mkRuntime (m_instanceCreated rt) (m_systemCreated rt) (m_pvrSession rt) v
    (m_loggedProductName rt) (m_floorHeight rt) (m_cachedEyeInfo rt)
    (m_cachedEyeFov rt) (m_cantingAngle rt) (m_useParallelProjection rt)
    (has_XR_EXT_hand_tracking rt).

Definition set_m_loggedProductName (v : bool) (rt : OpenXrRuntime) : OpenXrRuntime :=
  mkRuntime (m_instanceCreated rt) (m_systemCreated rt) (m_pvrSession rt)
    (m_cachedHmdInfo rt) v (m_floorHeight rt) (m_cachedEyeInfo rt)
    (m_cachedEyeFov rt) (m_cantingAngle rt) (m_useParallelProjection rt)
    (has_XR_EXT_hand_tracking rt).

Definition set_m_floorHeight (v : float) (rt : OpenXrRuntime) : OpenXrRuntime :=
  mkRuntime (m_instanceCreated rt) (m_systemCreated rt) (m_pvrSession rt)
    (m_cachedHmdInfo rt) (m_loggedProductName rt) v (m_cachedEyeInfo rt)
    (m_cachedEyeFov rt) (m_cantingAngle rt) (m_useParallelProjection rt)
    (has_XR_EXT_hand_tracking rt).

Definition set_m_cachedEyeInfo (v : Stereo pvrEyeRenderInfo) (rt : OpenXrRuntime)
  : OpenXrRuntime :=
  mkRuntime (m_instanceCreated rt) (m_systemCreated rt) (m_pvrSession rt)
    (m_cachedHmdInfo rt) (m_loggedProductName rt) (m_floorHeight rt) v
    (m_cachedEyeFov rt) (m_cantingAngle rt) (m_useParallelProjection rt)
    (has_XR_EXT_hand_tracking rt).

Definition set_m_cachedEyeFov (v : Stereo XrFovf) (rt : OpenXrRuntime) : OpenXrRuntime :=
  mkRuntime (m_instanceCreated rt) (m_systemCreated rt) (m_pvrSession rt)
    (m_cachedHmdInfo rt) (m_loggedProductName rt) (m_floorHeight rt)
    (m_cachedEyeInfo rt) v (m_cantingAngle rt) (m_useParallelProjection rt)
    (has_XR_EXT_hand_tracking rt).

Definition set_m_cantingAngle (v : float) (rt : OpenXrRuntime) : OpenXrRuntime :=
  mkRuntime (m_instanceCreated rt) (m_systemCreated rt) (m_pvrSession rt)
    (m_cachedHmdInfo rt) (m_loggedProductName rt) (m_floorHeight rt)
    (m_cachedEyeInfo rt) (m_cachedEyeFov rt) v (m_useParallelProjection rt)
    (has_XR_EXT_hand_tracking rt).

(** The cached snapshot of the device: identity, floor height, eye render
    info and the angles derived from it. *)
Definition snapshot (rt : OpenXrRuntime)
  : pvrHmdInfo * float * Stereo pvrEyeRenderInfo * Stereo XrFovf * float :=
  (m_cachedHmdInfo rt, m_floorHeight rt, m_cachedEyeInfo rt, m_cachedEyeFov rt,
   m_cantingAngle rt).

(* --------------------------------------------------------------------- *)
(** *** [OpenXrRuntime::updateEyeInfo] *)
(* --------------------------------------------------------------------- *)

(** Line 244: half the angle between the two cached eye orientations. *)
Definition cantingAngleOf (eyes : Stereo pvrEyeRenderInfo) : float :=
  fdiv (Quatf_Angle (eyeOrientation (sget 0 eyes)) (eyeOrientation (sget 1 eyes))) ftwo.

(** Lines 246-249: the four angles of one eye from its tangents. *)
Definition fovFromTangents (e : pvrEyeRenderInfo) : XrFovf :=
  {| angleDown := fneg (atanf (DownTan (Fov e)));
     angleUp := atanf (UpTan (Fov e));
     angleLeft := fneg (atanf (LeftTan (Fov e)));
     angleRight := atanf (RightTan (Fov e)) |}.

Definition assignFovFromTangents (i : nat) (rt : OpenXrRuntime) : OpenXrRuntime :=
  set_m_cachedEyeFov
    (sset i (fovFromTangents (sget i (m_cachedEyeInfo rt))) (m_cachedEyeFov rt)) rt.

(** Line 253: the test [m_useParallelProjection && m_cantingAngle]. *)
Definition parallelProjectionActive (rt : OpenXrRuntime) : bool :=
  m_useParallelProjection rt && float_to_bool (m_cantingAngle rt).

(** Lines 253-265: the correction of eye [i]. *)
Definition applyParallelProjection (i : nat) (rt : OpenXrRuntime) : OpenXrRuntime :=
  if parallelProjectionActive rt then
    (* Eliminate canting. *)
    let rt1 :=
      set_m_cachedEyeInfo
        (sset i (set_Orientation Quatf_Identity (sget i (m_cachedEyeInfo rt)))
           (m_cachedEyeInfo rt)) rt in
    (* Shift FOV by canting angle. *)
    let angle := if Nat.eqb i 0 then fneg (m_cantingAngle rt1) else m_cantingAngle rt1 in
    let f := sget i (m_cachedEyeFov rt1) in
    let f1 := mkXrFovf (fadd (angleLeft f) angle) (angleRight f) (angleUp f) (angleDown f) in
    let f2 := mkXrFovf (angleLeft f1) (fadd (angleRight f1) angle) (angleUp f1) (angleDown f1) in
    (* The vertical FOV grows by 6 degrees. *)
    let f3 := mkXrFovf (angleLeft f2) (angleRight f2)
                (fadd (angleUp f2) (DegreeToRad fsix)) (angleDown f2) in
    let f4 := mkXrFovf (angleLeft f3) (angleRight f3) (angleUp f3)
                (fsub (angleDown f3) (DegreeToRad fsix)) in
    set_m_cachedEyeFov (sset i f4 (m_cachedEyeFov rt1)) rt1
  else rt.

Definition updateEyeInfo_body (i : nat) (rt : OpenXrRuntime) : OpenXrRuntime :=
  applyParallelProjection i (assignFovFromTangents i rt).

Definition updateEyeInfo (rt : OpenXrRuntime) : OpenXrRuntime :=
  let rt0 := set_m_cantingAngle (cantingAngleOf (m_cachedEyeInfo rt)) rt in
  for_loop updateEyeInfo_body 0 StereoView_Count rt0.

(** The same test on a runtime whose canting angle is still to be
    computed: what line 253 reads in both rounds of the loop. *)
Definition correctionActive (rt : OpenXrRuntime) : bool :=
  m_useParallelProjection rt && float_to_bool (cantingAngleOf (m_cachedEyeInfo rt)).

(* --------------------------------------------------------------------- *)
(** *** Control flow of an API call *)
(* --------------------------------------------------------------------- *)

(** How a call leaves its body before the last statement: a [return] of
    an [XrResult], or [CHECK_PVRCMD] giving up on a [pvrResult]. *)
Inductive Exit : Set :=
| Return (r : XrResult)
| Throw (e : pvrResult).

(** A statement: it reads and writes the runtime object, and either goes
    on with a value or leaves the call.  What was written before the exit
    stays written. *)
Definition Exec (A : Type) : Type := OpenXrRuntime -> (A + Exit) * OpenXrRuntime.

Definition ret {A} (a : A) : Exec A := fun rt => (inl a, rt).

Definition bind {A B} (c : Exec A) (k : A -> Exec B) : Exec B :=
  fun rt =>
    match c rt with
    | (inl a, rt') => k a rt'
    | (inr e, rt') => (inr e, rt')
    end.

Definition get : Exec OpenXrRuntime := fun rt => (inl rt, rt).

Definition modify (f : OpenXrRuntime -> OpenXrRuntime) : Exec unit :=
  fun rt => (inl tt, f rt).

Definition leave {A} (e : Exit) : Exec A := fun rt => (inr e, rt).

(** [if (c) return r;] *)
Definition return_if (c : bool) (r : XrResult) : Exec unit :=
  if c then leave (Return r) else ret tt.

(** Modelled from the spec: the macro [CHECK_PVRCMD] is defined outside
    src/.  The spec calls it "check result, abort on failure" and maps any
    unexpected failure of the device service to a fatal error surfaced to
    the caller: a result other than [pvr_success] ends the call at once. *)
Definition CHECK_PVRCMD (r : pvrResult) : Exec unit :=
  match r with
  | pvr_success => ret tt
  | _ => leave (Throw r)
  end.

End Runtime.

Declare Scope exec_scope.
Delimit Scope exec_scope with exec.
Notation "x <- c ;; k" := (bind c (fun x => k))
  (at level 100, c at next level, right associativity) : exec_scope.
Notation "c ;; k" := (bind c (fun _ => k))
  (at level 100, right associativity) : exec_scope.

(* ===================================================================== *)
(** ** The API calls of [system.cpp] *)
(* ===================================================================== *)

Section Api.
Context {FO : FloatOps} {PH : PvrHeaders}.
Local Open Scope exec_scope.

(** The answers of the device service to the calls one [xrGetSystem]
    makes.  Where a call has an out parameter, the answer holds the
    result code and the content of the out parameter after the call. *)
Record PvrService : Type := mkPvrService {
  pvr_createSession : pvrResult * pvrSessionHandle;
  pvr_getHmdStatus : pvrResult * pvrHmdStatus;
  pvr_getHmdInfo : pvrResult * pvrHmdInfo;
  pvr_getFloatConfig_eye_height : float;   (* CONFIG_KEY_EYE_HEIGHT, default 0.f *)
  pvr_getEyeRenderInfo_Left : pvrResult * pvrEyeRenderInfo;
  pvr_getEyeRenderInfo_Right : pvrResult * pvrEyeRenderInfo;
  pvr_setTrackingOriginType : pvrResult
}.

Record XrSystemGetInfo : Set := mkSystemGetInfo {
  gi_type : XrStructureType;
  gi_formFactor : XrFormFactor
}.

(** The single handle values. *)
Definition the_instance : XrInstance := 1%N.
Definition the_system : XrSystemId := 1%N.

(* --------------------------------------------------------------------- *)
(** *** [OpenXrRuntime::xrGetSystem] *)
(* --------------------------------------------------------------------- *)

(** Lines 54-63. *)
Definition createPvrSession (svc : PvrService) : Exec unit :=
  rt <- get ;;
  if Z.eqb (m_pvrSession rt) 0 then
    let (result, handle) := pvr_createSession svc in
    modify (set_m_pvrSession handle) ;;
    (* The error returned when pi_server is not running. *)
    return_if (pvrResult_eqb result pvr_rpc_failed) XR_ERROR_FORM_FACTOR_UNAVAILABLE ;;
    CHECK_PVRCMD result
  else ret tt.

(** Lines 66-78. *)
Definition checkHmdPresence (svc : PvrService) : Exec unit :=
  let (result, status) := pvr_getHmdStatus svc in
  CHECK_PVRCMD result ;;
  return_if (negb (truthy (ServiceReady status) && truthy (HmdPresent status)))
    XR_ERROR_FORM_FACTOR_UNAVAILABLE.

(** Lines 81-97. *)
Definition queryHmdProperties (svc : PvrService) : Exec unit :=
  let (result, info) := pvr_getHmdInfo svc in
  modify (set_m_cachedHmdInfo info) ;;
  CHECK_PVRCMD result ;;
  rt <- get ;;
  if negb (m_loggedProductName rt) then modify (set_m_loggedProductName true) else ret tt.

(** Lines 100-108. *)
Definition cacheCommonInformation (svc : PvrService) : Exec unit :=
  modify (set_m_floorHeight (pvr_getFloatConfig_eye_height svc)) ;;
  (let (result, info) := pvr_getEyeRenderInfo_Left svc in
   modify (fun rt => set_m_cachedEyeInfo (sset 0 info (m_cachedEyeInfo rt)) rt) ;;
   CHECK_PVRCMD result) ;;
  (let (result, info) := pvr_getEyeRenderInfo_Right svc in
   modify (fun rt => set_m_cachedEyeInfo (sset 1 info (m_cachedEyeInfo rt)) rt) ;;
   CHECK_PVRCMD result) ;;
  modify updateEyeInfo.

(** Lines 36-78: everything before the first write to the cache. *)
Definition xrGetSystem_gate (svc : PvrService) (instance : XrInstance)
    (getInfo : XrSystemGetInfo) : Exec unit :=
  return_if (negb (XrStructureType_eqb (gi_type getInfo) XR_TYPE_SYSTEM_GET_INFO))
    XR_ERROR_VALIDATION_FAILURE ;;
  rt <- get ;;
  return_if (negb (m_instanceCreated rt) || negb (N.eqb instance 1))
    XR_ERROR_HANDLE_INVALID ;;
  return_if (negb (is_hmd (gi_formFactor getInfo))) XR_ERROR_FORM_FACTOR_UNSUPPORTED ;;
  createPvrSession svc ;;
  checkHmdPresence svc.

(** Lines 80-117: the refresh of the cache, and the system id. *)
Definition xrGetSystem_refresh (svc : PvrService) : Exec XrSystemId :=
  queryHmdProperties svc ;;
  cacheCommonInformation svc ;;
  CHECK_PVRCMD (pvr_setTrackingOriginType svc) ;;
  modify (set_m_systemCreated true) ;;
  ret 1%N.

Definition xrGetSystem_body (svc : PvrService) (instance : XrInstance)
    (getInfo : XrSystemGetInfo) : Exec XrSystemId :=
  xrGetSystem_gate svc instance getInfo ;;
  xrGetSystem_refresh svc.

(** The call as its caller sees it: how it ended, what was stored through
    [systemId] (nothing unless the last statements ran), and the runtime
    object afterwards. *)
Definition xrGetSystem (svc : PvrService) (instance : XrInstance)
    (getInfo : XrSystemGetInfo) (rt : OpenXrRuntime)
  : Exit * option XrSystemId * OpenXrRuntime :=
  match xrGetSystem_body svc instance getInfo rt with
  | (inl id, rt') => (Return XR_SUCCESS, Some id, rt')
  | (inr e, rt') => (e, None, rt')
  end.

(** The result code that reaches the application.  A [Throw] is caught
    by the dispatch layer, outside src/, and is the spec's
    FatalServiceError. *)
Definition resultOf (e : Exit) : XrResult :=
  match e with
  | Return r => r
  | Throw _ => XR_ERROR_RUNTIME_FAILURE
  end.

Definition isFatal (e : Exit) : bool :=
  match e with Throw _ => true | Return _ => false end.

Definition succeeded (e : Exit) : bool :=
  match e with Return XR_SUCCESS => true | _ => false end.

(* --------------------------------------------------------------------- *)
(** *** [OpenXrRuntime::xrGetSystemProperties] *)
(* --------------------------------------------------------------------- *)

(** One structure of a [next] chain: its type tag, and the 32-bit word
    that follows the [{type, next}] header.  In an
    [XrSystemHandTrackingPropertiesEXT] that word is
    [supportsHandTracking]; the code reaches it through a
    [reinterpret_cast], whatever the structure is. *)
Record ChainBlock : Set := mkBlock {
  blk_type : XrStructureType;
  blk_word0 : XrBool32
}.

Definition set_supportsHandTracking (v : XrBool32) (b : ChainBlock) : ChainBlock :=
  mkBlock (blk_type b) v.

(** [XrSystemProperties]; [sp_next] is the chain hanging from [next], in
    order (a finite list: the chain ends with a null [next]).  The name
    buffer is wider than the SDK's product name plus the suffix, so
    [sprintf_s] is a plain concatenation. *)
Record XrSystemProperties : Set := mkSystemProperties {
  sp_type : XrStructureType;
  sp_next : list ChainBlock;
  sp_systemId : XrSystemId;
  sp_vendorId : Z;
  sp_systemName : string;
  sp_maxSwapchainImageHeight : Z;
  sp_maxSwapchainImageWidth : Z;
  sp_maxLayerCount : Z;
  sp_orientationTracking : XrBool32;
  sp_positionTracking : XrBool32
}.

(** Lines 146-152: the [while] loop, from the block at position [pos].
    The answer is the position of the block the pointer stops at, or
    [None] for a null pointer. *)
Fixpoint walkChain (chain : list ChainBlock) (pos : nat) : option nat :=
  match chain with
  | [] => None
  | b :: rest =>
      if XrStructureType_eqb (blk_type b) XR_TYPE_SYSTEM_HAND_TRACKING_PROPERTIES_EXT
      then Some pos
      else walkChain rest (S pos)
  end.

(** Lines 143-153: the value of [handTrackingProperties] after the walk.
    It starts as [properties->next] and is only advanced when the
    extension is enabled. *)
Definition handTrackingProperties (has_ext : bool) (chain : list ChainBlock)
  : option nat :=
  if has_ext then walkChain chain 0
  else match chain with [] => None | _ :: _ => Some O end.

(** Lines 181-188. *)
Definition fillHandTracking (p : option nat) (chain : list ChainBlock)
  : list ChainBlock :=
  match p with
  | Some i => alter (set_supportsHandTracking XR_TRUE) i chain
  | None => chain
  end.

Definition xrGetSystemProperties (rt : OpenXrRuntime) (instance : XrInstance)
    (systemId : XrSystemId) (properties : XrSystemProperties)
  : XrResult * XrSystemProperties :=
  if negb (XrStructureType_eqb (sp_type properties) XR_TYPE_SYSTEM_PROPERTIES)
  then (XR_ERROR_VALIDATION_FAILURE, properties)
  else if negb (m_instanceCreated rt) || negb (N.eqb instance 1)
  then (XR_ERROR_HANDLE_INVALID, properties)
  else if negb (m_systemCreated rt) || negb (N.eqb systemId 1)
  then (XR_ERROR_SYSTEM_INVALID, properties)
  else
    let p := handTrackingProperties (has_XR_EXT_hand_tracking rt) (sp_next properties) in
    (XR_SUCCESS,
     {| sp_type := sp_type properties;
        sp_next := fillHandTracking p (sp_next properties);
        sp_systemId := systemId;
        sp_vendorId := VendorId (m_cachedHmdInfo rt);
        sp_systemName := (ProductName (m_cachedHmdInfo rt) ++ " (aapvr)")%string;
        sp_maxSwapchainImageHeight := 16384;
        sp_maxSwapchainImageWidth := 16384;
        sp_maxLayerCount := pvrMaxLayerCount;
        sp_orientationTracking := XR_TRUE;
        sp_positionTracking := XR_TRUE |}).

End Api.

(* --------------------------------------------------------------------- *)
(** *** [OpenXrRuntime::xrEnumerateEnvironmentBlendModes] *)
(* --------------------------------------------------------------------- *)

Section BlendModes.
Context {FO : FloatOps} {PH : PvrHeaders}.

(** We only support immersive VR mode. *)
Definition blendModes : list XrEnvironmentBlendMode :=
  [XR_ENVIRONMENT_BLEND_MODE_OPAQUE].

(** [ARRAYSIZE(table)] as a [uint32_t]. *)
Definition ARRAYSIZE {A} (table : list A) : N := N.of_nat (length table).

(** Lines 232-237: [n] rounds of [out[i] = table[i]] from index [i].
    [None] is a store past the end of the caller's array (or a read past
    the table), which C++ leaves undefined. *)
Fixpoint copyBlendModes (table : list XrEnvironmentBlendMode) (i n : nat)
    (out : list XrEnvironmentBlendMode) : option (list XrEnvironmentBlendMode) :=
  match n with
  | O => Some out
  | S n' =>
      match table !! i with
      | Some m =>
          if Nat.ltb i (length out)
          then copyBlendModes table (S i) n' (<[i := m]> out)
          else None
      | None => None
      end
  end.

(** What the caller holds after the call: the result code, the content
    of [*environmentBlendModeCountOutput], and the array, [None] standing
    for a null pointer. *)
Record EnumerateResult : Set := mkEnumerateResult {
  er_result : XrResult;
  er_countOutput : N;
  er_modes : option (list XrEnvironmentBlendMode)
}.

(** The body of the call over a table of supported modes.  [countOutput]
    is the content of [*environmentBlendModeCountOutput] before the call.
    The outer [None] is undefined behaviour of the copy loop. *)
Definition enumerateBlendModesFrom (table : list XrEnvironmentBlendMode)
    (rt : OpenXrRuntime) (instance : XrInstance) (systemId : XrSystemId)
    (viewConfigurationType : XrViewConfigurationType)
    (capacityInput : N) (countOutput : N)
    (modes : option (list XrEnvironmentBlendMode))
  : option EnumerateResult :=
  if negb (m_instanceCreated rt) || negb (N.eqb instance 1)
  then Some (mkEnumerateResult XR_ERROR_HANDLE_INVALID countOutput modes)
  else if negb (m_systemCreated rt) || negb (N.eqb systemId 1)
  then Some (mkEnumerateResult XR_ERROR_SYSTEM_INVALID countOutput modes)
  else if negb (is_primary_stereo viewConfigurationType)
  then Some (mkEnumerateResult XR_ERROR_VIEW_CONFIGURATION_TYPE_UNSUPPORTED
               countOutput modes)
  else if negb (N.eqb capacityInput 0) && N.ltb capacityInput (ARRAYSIZE table)
  then Some (mkEnumerateResult XR_ERROR_SIZE_INSUFFICIENT countOutput modes)
  else
    let count := ARRAYSIZE table in
    (* if (environmentBlendModeCapacityInput && environmentBlendModes) *)
    match negb (N.eqb capacityInput 0), modes with
    | true, Some out =>
        match copyBlendModes table 0 (N.to_nat count) out with
        | Some out' => Some (mkEnumerateResult XR_SUCCESS count (Some out'))
        | None => None
        end
    | _, _ => Some (mkEnumerateResult XR_SUCCESS count modes)
    end.

Definition xrEnumerateEnvironmentBlendModes :=
  enumerateBlendModesFrom blendModes.

(** Valid handles and the supported view configuration. *)
Definition validEnumerateArgs (rt : OpenXrRuntime) (instance : XrInstance)
    (systemId : XrSystemId) (t : XrViewConfigurationType) : Prop :=
  m_instanceCreated rt = true /\ instance = the_instance /\
  m_systemCreated rt = true /\ systemId = the_system /\
  t = XR_VIEW_CONFIGURATION_TYPE_PRIMARY_STEREO.

End BlendModes.

(* ===================================================================== *)
(** ** The diagnostic snapshot of [companion.cpp] *)
(* ===================================================================== *)

Section Companion.
Context {FO : FloatOps} {PH : PvrHeaders}.

Record RuntimeStatus : Type := mkRuntimeStatus {
  valid : bool;
  refreshRate : float;
  resolutionWidth : Z;
  resolutionHeight : Z;
  fovLevel : Z;
  fov : float;
  floorHeight : float;
  useParallelProjection : bool;
  useSmartSmoothing : bool;
  useLighthouseTracking : bool;
  fps : float
}.

(** The answers of the device service to the calls of one
    [getRuntimeStatus]. *)
Record CompanionService : Type := mkCompanionService {
  c_initialise : pvrResult;
  c_createSession : pvrResult;
  c_getEyeDisplayInfo : pvrResult * float;          (* refresh_rate *)
  c_getEyeRenderInfo_Left : pvrResult * pvrEyeRenderInfo;
  c_getEyeRenderInfo_Right : pvrResult * pvrEyeRenderInfo;
  c_steamvr_use_native_fov : Z;                      (* pvr_getIntConfig, default 0 *)
  c_getFovTextureSize : pvrFovPort -> pvrResult * pvrSizei;
                                                     (* left eye, pixel density 1.f *)
  c_fov_level : Z;
  c_eye_height : float;
  c_dbg_asw_enable : Z;
  c_enable_lighthouse_tracking : Z;
  c_client_fps : float
}.

(** Line 59. *)
Definition companionCantingAngle (left right : pvrEyeRenderInfo) : float :=
  fdiv (Quatf_Angle (eyeOrientation left) (eyeOrientation right)) ftwo.

(** Line 61. *)
Definition companionFov (left right : pvrEyeRenderInfo) (cantingAngle : float) : float :=
  RadToDegree
    (fadd (fadd (atanf (LeftTan (Fov left))) (atanf (RightTan (Fov right))))
          (fmul cantingAngle ftwo)).

(** Line 62: [cantingAngle && !pvr_getIntConfig(..., "steamvr_use_native_fov", 0)]. *)
Definition selectParallelProjection (cantingAngle : float) (use_native_fov : Z) : bool :=
  float_to_bool cantingAngle && negb (truthy use_native_fov).

(** Lines 64-70. *)
Definition fovForResolution (left : pvrEyeRenderInfo) (cantingAngle : float)
    (useParallelProjection : bool) : pvrFovPort :=
  if useParallelProjection then
    {| LeftTan := tanf (fadd (atanf (LeftTan (Fov left))) cantingAngle);
       RightTan := tanf (fsub (atanf (RightTan (Fov left))) cantingAngle);
       UpTan := tanf (fadd (atanf (UpTan (Fov left))) (DegreeToRad fsix));
       DownTan := tanf (fadd (atanf (DownTan (Fov left))) (DegreeToRad fsix)) |}
  else Fov left.

(** [CHECK_PVRCMD] in this free function: nothing catches the failure, so
    the call yields no status. *)
Definition check (r : pvrResult) : option unit :=
  match r with pvr_success => Some tt | _ => None end.

(** A [uint8_t] and a [uint32_t] from an [int]. *)
Definition to_uint8 (x : Z) : Z := x mod 2 ^ 8.
Definition to_uint32 (x : Z) : Z := x mod 2 ^ 32.

Definition getRuntimeStatus (svc : CompanionService) : option RuntimeStatus :=
  _ ← check (c_initialise svc);
  _ ← check (c_createSession svc);
  let (r0, refresh_rate) := c_getEyeDisplayInfo svc in
  _ ← check r0;
  let (r1, eyeInfo0) := c_getEyeRenderInfo_Left svc in
  _ ← check r1;
  let (r2, eyeInfo1) := c_getEyeRenderInfo_Right svc in
  _ ← check r2;
  let cantingAngle := companionCantingAngle eyeInfo0 eyeInfo1 in
  let fov := companionFov eyeInfo0 eyeInfo1 cantingAngle in
  let useParallelProjection :=
    selectParallelProjection cantingAngle (c_steamvr_use_native_fov svc) in
  let (r3, viewportSize) :=
    c_getFovTextureSize svc (fovForResolution eyeInfo0 cantingAngle useParallelProjection) in
  _ ← check r3;
  Some {| valid := true;
          refreshRate := refresh_rate;
          resolutionWidth := to_uint32 (size_w viewportSize);
          resolutionHeight := to_uint32 (size_h viewportSize);
          fovLevel := to_uint8 (c_fov_level svc);
          fov := fov;
          floorHeight := c_eye_height svc;
          useParallelProjection := useParallelProjection;
          useSmartSmoothing := truthy (c_dbg_asw_enable svc);
          useLighthouseTracking := truthy (c_enable_lighthouse_tracking svc);
          fps := c_client_fps svc |}.

End Companion.

(** Modelled from the spec: the statement that assigns
    [m_useParallelProjection] is outside src/.  The spec gives the
    configuration key [steamvr_use_native_fov] the effect "disables
    parallel-projection correction", the companion reads the key with
    [!pvr_getIntConfig(..., 0)]. *)
Definition useParallelProjectionFromConfig (use_native_fov : Z) : bool :=
  negb (truthy use_native_fov).

(* ===================================================================== *)
(** ** The interface over the real numbers *)
(* ===================================================================== *)

(** Exact arithmetic: [float] read as [R], with the trigonometry of the
    Standard Library.  The angle between two rotations is
    [2 acos |a . b|]. *)
Module RealModel.

Definition Rfeqb (a b : R) : bool := if Req_dec_T a b then true else false.

Definition ops : FloatOps :=
  {| float := R;
     fzero := 0%R; fone := 1%R; ftwo := 2%R; fsix := 6%R;
     fadd := Rplus; fsub := Rminus; fmul := Rmult; fdiv := Rdiv;
     fneg := Ropp; feqb := Rfeqb;
     atanf := atan; tanf := tan |}.

#[local] Existing Instance ops.

Definition dot (a b : @Quatf ops) : R :=
  (qx a * qx b + qy a * qy b + qz a * qz b + qw a * qw b)%R.

Definition headers : @PvrHeaders ops :=
  {| Quatf_Angle := fun a b => (2 * acos (Rabs (dot a b)))%R;
     DegreeToRad := fun d => (d * (PI / 180))%R;
     RadToDegree := fun r => (r * (180 / PI))%R;
     pvrMaxLayerCount := 16 |}.

#[local] Existing Instance headers.

(** Straight ahead, and a quarter turn about the vertical axis. *)
Definition q_ahead : @Quatf ops := @mkQuatf ops 0%R 0%R 0%R 1%R.
Definition q_turned : @Quatf ops := @mkQuatf ops 0%R (/ sqrt 2)%R 0%R (/ sqrt 2)%R.

Definition eye (q : @Quatf ops) : @pvrEyeRenderInfo ops :=
  {| Fov := {| UpTan := 1%R; DownTan := 1%R; LeftTan := 1%R; RightTan := 1%R |};
     HmdToEyePose := {| Orientation := q; Position := @mkVector3f ops 0%R 0%R 0%R |} |}.

Definition fov0 : @XrFovf ops := @mkXrFovf ops 0%R 0%R 0%R 0%R.

Definition hmd (name : string) : pvrHmdInfo :=
  {| VendorId := 13623; ProductId := 1; Manufacturer := "Pimax";
     ProductName := name; SerialNumber := "0001";
     FirmwareMinor := 0; FirmwareMajor := 1;
     Resolution := mkSizei 3840 2160 |}.

(** A runtime with an instance, a session and a system already created. *)
Definition runtime (l r : @Quatf ops) (pp : bool) : @OpenXrRuntime ops :=
  {| m_instanceCreated := true;
     m_systemCreated := true;
     m_pvrSession := 42;
     m_cachedHmdInfo := hmd "Pimax 8KX";
     m_loggedProductName := true;
     m_floorHeight := 0%R;
     m_cachedEyeInfo := mkStereo (eye l) (eye r);
     m_cachedEyeFov := mkStereo fov0 fov0;
     m_cantingAngle := 0%R;
     m_useParallelProjection := pp;
     has_XR_EXT_hand_tracking := false |}.

Definition status_ready : pvrHmdStatus := mkHmdStatus 1 1 1 1 0 0.
Definition status_absent : pvrHmdStatus := mkHmdStatus 1 0 0 0 0 0.

(** A service whose identity query answers, and whose right-eye query
    fails with [right]. *)
Definition service (status : pvrHmdStatus) (right : pvrResult) : @PvrService ops :=
  {| pvr_createSession := (pvr_success, 42);
     pvr_getHmdStatus := (pvr_success, status);
     pvr_getHmdInfo := (pvr_success, hmd "Pimax Crystal");
     pvr_getFloatConfig_eye_height := 0%R;
     pvr_getEyeRenderInfo_Left := (pvr_success, eye q_ahead);
     pvr_getEyeRenderInfo_Right := (right, eye q_turned);
     pvr_setTrackingOriginType := pvr_success |}.

(** A runtime with an instance only, and a service that cannot be
    reached. *)
Definition fresh_runtime : @OpenXrRuntime ops :=
  {| m_instanceCreated := true;
     m_systemCreated := false;
     m_pvrSession := 0;
     m_cachedHmdInfo := hmd EmptyString;
     m_loggedProductName := false;
     m_floorHeight := 0%R;
     m_cachedEyeInfo := mkStereo (eye q_ahead) (eye q_ahead);
     m_cachedEyeFov := mkStereo fov0 fov0;
     m_cantingAngle := 0%R;
     m_useParallelProjection := true;
     has_XR_EXT_hand_tracking := false |}.

Definition service_down : @PvrService ops :=
  {| pvr_createSession := (pvr_rpc_failed, 0);
     pvr_getHmdStatus := (pvr_rpc_failed, mkHmdStatus 0 0 0 0 0 0);
     pvr_getHmdInfo := (pvr_rpc_failed, hmd EmptyString);
     pvr_getFloatConfig_eye_height := 0%R;
     pvr_getEyeRenderInfo_Left := (pvr_rpc_failed, eye q_ahead);
     pvr_getEyeRenderInfo_Right := (pvr_rpc_failed, eye q_ahead);
     pvr_setTrackingOriginType := pvr_rpc_failed |}.

Definition getInfo_hmd : XrSystemGetInfo :=
  mkSystemGetInfo XR_TYPE_SYSTEM_GET_INFO XR_FORM_FACTOR_HEAD_MOUNTED_DISPLAY.

Definition companion_service (use_native_fov : Z) : @CompanionService ops :=
  {| c_initialise := pvr_success;
     c_createSession := pvr_success;
     c_getEyeDisplayInfo := (pvr_success, 90%R);
     c_getEyeRenderInfo_Left := (pvr_success, eye q_ahead);
     c_getEyeRenderInfo_Right := (pvr_success, eye q_turned);
     c_steamvr_use_native_fov := use_native_fov;
     c_getFovTextureSize := fun _ => (pvr_success, mkSizei 3840 2160);
     c_fov_level := 1;
     c_eye_height := 0%R;
     c_dbg_asw_enable := 0;
     c_enable_lighthouse_tracking := 0;
     c_client_fps := 90%R |}.

(** An [XrSystemEyeGazeInteractionPropertiesEXT] whose
    [supportsEyeGazeInteraction] is false, and a hand-tracking block. *)
Definition eye_gaze_block : ChainBlock := mkBlock (XR_TYPE_OTHER 1000030000) XR_FALSE.
Definition hand_tracking_block : ChainBlock :=
  mkBlock XR_TYPE_SYSTEM_HAND_TRACKING_PROPERTIES_EXT XR_FALSE.

Definition properties (chain : list ChainBlock) : XrSystemProperties :=
  {| sp_type := XR_TYPE_SYSTEM_PROPERTIES; sp_next := chain;
     sp_systemId := 0%N; sp_vendorId := 0; sp_systemName := EmptyString;
     sp_maxSwapchainImageHeight := 0; sp_maxSwapchainImageWidth := 0;
     sp_maxLayerCount := 0; sp_orientationTracking := 0; sp_positionTracking := 0 |}.

End RealModel.

(* ===================================================================== *)
(** ** Conditions on a call, read off its tests *)
(* ===================================================================== *)

Section Conditions.
Context {FO : FloatOps} {PH : PvrHeaders}.

(** The three tests of [xrGetSystem] that come before any call to the
    device service (lines 36-51) all pass. *)
Definition requestAccepted (rt : OpenXrRuntime) (instance : XrInstance)
    (getInfo : XrSystemGetInfo) : bool :=
  XrStructureType_eqb (gi_type getInfo) XR_TYPE_SYSTEM_GET_INFO &&
  (m_instanceCreated rt && N.eqb instance 1) &&
  is_hmd (gi_formFactor getInfo).

(** Every call to the device service that [xrGetSystem] checks answers
    [pvr_success] (the session is only created when there is none), and
    the status reports the service ready and the headset present. *)
Definition deviceAnswers (svc : PvrService) (rt : OpenXrRuntime) : bool :=
  (negb (Z.eqb (m_pvrSession rt) 0) ||
   pvrResult_eqb (fst (pvr_createSession svc)) pvr_success) &&
  pvrResult_eqb (fst (pvr_getHmdStatus svc)) pvr_success &&
  (truthy (ServiceReady (snd (pvr_getHmdStatus svc))) &&
   truthy (HmdPresent (snd (pvr_getHmdStatus svc)))) &&
  pvrResult_eqb (fst (pvr_getHmdInfo svc)) pvr_success &&
  pvrResult_eqb (fst (pvr_getEyeRenderInfo_Left svc)) pvr_success &&
  pvrResult_eqb (fst (pvr_getEyeRenderInfo_Right svc)) pvr_success &&
  pvrResult_eqb (pvr_setTrackingOriginType svc) pvr_success.

(** The session handle after lines 54-63, when they do not leave the
    call: the one the runtime had, or the one the service wrote. *)
Definition sessionAfter (svc : PvrService) (rt : OpenXrRuntime) : pvrSessionHandle :=
  if Z.eqb (m_pvrSession rt) 0 then snd (pvr_createSession svc) else m_pvrSession rt.

(** The runtime after a call of [xrGetSystem] that ran to its end. *)
Definition acquired (svc : PvrService) (rt : OpenXrRuntime) : OpenXrRuntime :=
  set_m_systemCreated true
    (updateEyeInfo
       (mkRuntime (m_instanceCreated rt) (m_systemCreated rt) (sessionAfter svc rt)
          (snd (pvr_getHmdInfo svc)) true (pvr_getFloatConfig_eye_height svc)
          (mkStereo (snd (pvr_getEyeRenderInfo_Left svc))
                    (snd (pvr_getEyeRenderInfo_Right svc)))
          (m_cachedEyeFov rt) (m_cantingAngle rt) (m_useParallelProjection rt)
          (has_XR_EXT_hand_tracking rt))).

(** What no statement of [xrGetSystem] undoes, between the runtime
    before a call and the runtime after it. *)
Definition keptByAcquisition (rt rt' : OpenXrRuntime) : Prop :=
  m_instanceCreated rt' = m_instanceCreated rt /\
  m_useParallelProjection rt' = m_useParallelProjection rt /\
  has_XR_EXT_hand_tracking rt' = has_XR_EXT_hand_tracking rt /\
  (m_systemCreated rt = true -> m_systemCreated rt' = true) /\
  (m_loggedProductName rt = true -> m_loggedProductName rt' = true) /\
  (m_pvrSession rt <> 0 -> m_pvrSession rt' = m_pvrSession rt).

Definition isHandTracking (b : ChainBlock) : bool :=
  XrStructureType_eqb (blk_type b) XR_TYPE_SYSTEM_HAND_TRACKING_PROPERTIES_EXT.

(** The three tests of [xrGetSystemProperties] (lines 128-141) all pass. *)
Definition propertiesAccepted (rt : OpenXrRuntime) (instance : XrInstance)
    (systemId : XrSystemId) (properties : XrSystemProperties) : bool :=
  XrStructureType_eqb (sp_type properties) XR_TYPE_SYSTEM_PROPERTIES &&
  (m_instanceCreated rt && N.eqb instance 1) &&
  (m_systemCreated rt && N.eqb systemId 1).

(** Every checked call of [getRuntimeStatus] answers [pvr_success]. *)
Definition companionAnswers (svc : CompanionService) : bool :=
  let l := snd (c_getEyeRenderInfo_Left svc) in
  let r := snd (c_getEyeRenderInfo_Right svc) in
  let c := companionCantingAngle l r in
  let pp := selectParallelProjection c (c_steamvr_use_native_fov svc) in
  pvrResult_eqb (c_initialise svc) pvr_success &&
  pvrResult_eqb (c_createSession svc) pvr_success &&
  pvrResult_eqb (fst (c_getEyeDisplayInfo svc)) pvr_success &&
  pvrResult_eqb (fst (c_getEyeRenderInfo_Left svc)) pvr_success &&
  pvrResult_eqb (fst (c_getEyeRenderInfo_Right svc)) pvr_success &&
  pvrResult_eqb (fst (c_getFovTextureSize svc (fovForResolution l c pp))) pvr_success.

End Conditions.

(** Further inputs over the reals. *)
Module RealSamples.
Import RealModel.
#[local] Existing Instance ops.
#[local] Existing Instance headers.

(** A request with the type tag of another structure. *)
Definition getInfo_wrong_type : XrSystemGetInfo :=
  mkSystemGetInfo XR_TYPE_SYSTEM_PROPERTIES XR_FORM_FACTOR_HEAD_MOUNTED_DISPLAY.

(** A device service that answers every call. *)
Definition service_up : @PvrService ops := service status_ready pvr_success.

(** A runtime with the hand-tracking extension enabled. *)
Definition runtime_hand_tracking : @OpenXrRuntime ops :=
  {| m_instanceCreated := true;
     m_systemCreated := true;
     m_pvrSession := 42;
     m_cachedHmdInfo := hmd "Pimax 8KX";
     m_loggedProductName := true;
     m_floorHeight := 0%R;
     m_cachedEyeInfo := mkStereo (eye q_ahead) (eye q_turned);
     m_cachedEyeFov := mkStereo fov0 fov0;
     m_cantingAngle := 0%R;
     m_useParallelProjection := true;
     has_XR_EXT_hand_tracking := true |}.

(** An eye-gaze block, then two hand-tracking blocks. *)
Definition chain_sample : list ChainBlock :=
  [eye_gaze_block; hand_tracking_block; hand_tracking_block].

End RealSamples.

(** The angle between two orientations, as the spec has it. *)
Module SpecAngle.
Import RealModel.
#[local] Existing Instance ops.

(** Modelled from the spec: [PVR::Quatf::Angle] is a function of the
    vendor SDK's math header, which is absent from src/.  The spec calls
    it the "angular separation between the two eyes' orientation
    quaternions", a scalar in radians, and an orientation a unit
    quaternion: the angle of the rotation that takes one orientation to
    the other, [2 acos |a . b|], here in exact arithmetic. *)
Definition angleBetween (a b : @Quatf ops) : R :=
  (2 * acos (Rabs (dot a b)))%R.

(** The SDK header with that angle; the other helpers as in
    [RealModel]. *)
Definition headers : @PvrHeaders ops :=
  {| Quatf_Angle := angleBetween;
     DegreeToRad := @DegreeToRad ops RealModel.headers;
     RadToDegree := @RadToDegree ops RealModel.headers;
     pvrMaxLayerCount := @pvrMaxLayerCount ops RealModel.headers |}.



End SpecAngle.

(* ===================================================================== *)
(** ** Projection geometry *)
(* ===================================================================== *)

Section GeometryFacts.
Context {FO : FloatOps} {PH : PvrHeaders}.

(** The loop of [updateEyeInfo] is its body at eye 0, then at eye 1. *)
Lemma updateEyeInfo_unroll (rt : OpenXrRuntime) :
  updateEyeInfo rt =
  updateEyeInfo_body 1
    (updateEyeInfo_body 0 (set_m_cantingAngle (cantingAngleOf (m_cachedEyeInfo rt)) rt)).
Proof. reflexivity. Qed.

(** Neither step of the body writes the canting angle or the flag. *)
Lemma body_keeps_gate (i : nat) (rt : OpenXrRuntime) :
  m_cantingAngle (updateEyeInfo_body i rt) = m_cantingAngle rt /\
  m_useParallelProjection (updateEyeInfo_body i rt) = m_useParallelProjection rt.
Proof.
  unfold updateEyeInfo_body, applyParallelProjection, assignFovFromTangents.
  destruct (parallelProjectionActive _); split; reflexivity.
Qed.

Lemma updateEyeInfo_cantingAngle (rt : OpenXrRuntime) :
  m_cantingAngle (updateEyeInfo rt) = cantingAngleOf (m_cachedEyeInfo rt).
Proof.
  rewrite updateEyeInfo_unroll.
  rewrite (proj1 (body_keeps_gate 1 _)), (proj1 (body_keeps_gate 0 _)).
  reflexivity.
Qed.

(** One round of the loop when the test of line 253 fails: the angles from
    the tangents, nothing more. *)
Lemma body_inactive (i : nat) (rt : OpenXrRuntime) :
  parallelProjectionActive rt = false ->
  updateEyeInfo_body i rt = assignFovFromTangents i rt.
Proof.
  intros Hoff. unfold updateEyeInfo_body, applyParallelProjection.
  change (parallelProjectionActive (assignFovFromTangents i rt))
    with (parallelProjectionActive rt).
  rewrite Hoff. reflexivity.
Qed.

(** One round of the loop when the test of line 253 passes. *)
Lemma body_active (i : nat) (rt : OpenXrRuntime) :
  let e := sget i (m_cachedEyeInfo rt) in
  let angle := if Nat.eqb i 0 then fneg (m_cantingAngle rt) else m_cantingAngle rt in
  parallelProjectionActive rt = true ->
  m_cachedEyeInfo (updateEyeInfo_body i rt) =
    sset i (set_Orientation Quatf_Identity e) (m_cachedEyeInfo rt) /\
  m_cachedEyeFov (updateEyeInfo_body i rt) =
    sset i
      {| angleLeft := fadd (fneg (atanf (LeftTan (Fov e)))) angle;
         angleRight := fadd (atanf (RightTan (Fov e))) angle;
         angleUp := fadd (atanf (UpTan (Fov e))) (DegreeToRad fsix);
         angleDown := fsub (fneg (atanf (DownTan (Fov e)))) (DegreeToRad fsix) |}
      (m_cachedEyeFov rt).
Proof.
  intros e angle Hon. subst e angle.
  unfold updateEyeInfo_body, applyParallelProjection.
  change (parallelProjectionActive (assignFovFromTangents i rt))
    with (parallelProjectionActive rt).
  rewrite Hon.
  destruct rt as [ic sc ps hi lp fh [e0 e1] [f0 f1] ca pp ext].
  destruct i as [|[|i]]; split; reflexivity.
Qed.

(** The test of line 253 reads the same in both rounds. *)
Lemma gate_round0 (rt : OpenXrRuntime) :
  parallelProjectionActive
    (set_m_cantingAngle (cantingAngleOf (m_cachedEyeInfo rt)) rt) =
  correctionActive rt.
Proof. reflexivity. Qed.

Lemma gate_round1 (rt : OpenXrRuntime) :
  parallelProjectionActive
    (updateEyeInfo_body 0
       (set_m_cantingAngle (cantingAngleOf (m_cachedEyeInfo rt)) rt)) =
  correctionActive rt.
Proof.
  unfold parallelProjectionActive, correctionActive.
  rewrite (proj1 (body_keeps_gate 0 _)), (proj2 (body_keeps_gate 0 _)).
  reflexivity.
Qed.

(** C1.  When the correction is active (the flag is set and the canting
    angle is not zero), [updateEyeInfo] leaves both cached orientations at
    the identity quaternion; the left eye's [angleLeft] and [angleRight]
    are the arctangent-derived angles plus [-cantingAngle], the right eye's
    are the arctangent-derived angles plus [cantingAngle]; and for both
    eyes [angleUp] is the raw angle plus 6 degrees in radians and
    [angleDown] the raw angle minus 6 degrees in radians. *)
Theorem updateEyeInfo_parallel_projection (rt : OpenXrRuntime) :
  let l := sget 0 (m_cachedEyeInfo rt) in
  let r := sget 1 (m_cachedEyeInfo rt) in
  let c := cantingAngleOf (m_cachedEyeInfo rt) in
  let six_degrees := DegreeToRad fsix in
  m_useParallelProjection rt = true ->
  feqb c fzero = false ->
  let rt' := updateEyeInfo rt in
  m_cantingAngle rt' = c /\
  eyeOrientation (sget 0 (m_cachedEyeInfo rt')) = Quatf_Identity /\
  eyeOrientation (sget 1 (m_cachedEyeInfo rt')) = Quatf_Identity /\
  Fov (sget 0 (m_cachedEyeInfo rt')) = Fov l /\
  Fov (sget 1 (m_cachedEyeInfo rt')) = Fov r /\
  sget 0 (m_cachedEyeFov rt') =
    {| angleLeft := fadd (fneg (atanf (LeftTan (Fov l)))) (fneg c);
       angleRight := fadd (atanf (RightTan (Fov l))) (fneg c);
       angleUp := fadd (atanf (UpTan (Fov l))) six_degrees;
       angleDown := fsub (fneg (atanf (DownTan (Fov l)))) six_degrees |} /\
  sget 1 (m_cachedEyeFov rt') =
    {| angleLeft := fadd (fneg (atanf (LeftTan (Fov r)))) c;
       angleRight := fadd (atanf (RightTan (Fov r))) c;
       angleUp := fadd (atanf (UpTan (Fov r))) six_degrees;
       angleDown := fsub (fneg (atanf (DownTan (Fov r)))) six_degrees |}.
Proof.
  intros l r c six_degrees Hpp Hc rt'.
  assert (Hact : correctionActive rt = true).
  { unfold correctionActive, float_to_bool. fold c. rewrite Hpp, Hc. reflexivity. }
  split; [apply updateEyeInfo_cantingAngle|].
  subst rt'. rewrite updateEyeInfo_unroll.
  set (rt0 := set_m_cantingAngle (cantingAngleOf (m_cachedEyeInfo rt)) rt).
  assert (H0 : parallelProjectionActive rt0 = true)
    by (unfold rt0; rewrite gate_round0; exact Hact).
  assert (H1 : parallelProjectionActive (updateEyeInfo_body 0 rt0) = true)
    by (unfold rt0; rewrite gate_round1; exact Hact).
  destruct (body_active 1 (updateEyeInfo_body 0 rt0) H1) as [Hi1 Hf1].
  destruct (body_active 0 rt0 H0) as [Hi0 Hf0].
  rewrite (proj1 (body_keeps_gate 0 rt0)) in Hf1.
  rewrite Hi0 in Hi1, Hf1. rewrite Hf0 in Hf1.
  rewrite Hi1, Hf1.
  change (m_cachedEyeInfo rt0) with (m_cachedEyeInfo rt).
  change (m_cantingAngle rt0) with c.
  subst l r.
  destruct (m_cachedEyeInfo rt) as [e0 e1].
  repeat split; reflexivity.
Qed.

(** C4.  In each round of the loop the four angles of the eye are first
    set from the tangents of that eye: [angleDown = -atan(DownTan)],
    [angleUp = atan(UpTan)], [angleLeft = -atan(LeftTan)],
    [angleRight = atan(RightTan)]; the correction, if any, is applied to
    these values, and without correction they are the cached result. *)
Theorem eye_fov_from_tangents (rt : OpenXrRuntime) :
  let raw := fun e : pvrEyeRenderInfo =>
    {| angleLeft := fneg (atanf (LeftTan (Fov e)));
       angleRight := atanf (RightTan (Fov e));
       angleUp := atanf (UpTan (Fov e));
       angleDown := fneg (atanf (DownTan (Fov e))) |} in
  let rt0 := set_m_cantingAngle (cantingAngleOf (m_cachedEyeInfo rt)) rt in
  let s0 := assignFovFromTangents 0 rt0 in
  let s1 := assignFovFromTangents 1 (applyParallelProjection 0 s0) in
  updateEyeInfo rt = applyParallelProjection 1 s1 /\
  sget 0 (m_cachedEyeFov s0) = raw (sget 0 (m_cachedEyeInfo rt)) /\
  sget 1 (m_cachedEyeFov s1) = raw (sget 1 (m_cachedEyeInfo rt)) /\
  (correctionActive rt = false ->
   m_cachedEyeFov (updateEyeInfo rt) =
     mkStereo (raw (sget 0 (m_cachedEyeInfo rt))) (raw (sget 1 (m_cachedEyeInfo rt))) /\
   m_cachedEyeInfo (updateEyeInfo rt) = m_cachedEyeInfo rt).
Proof.
  intros raw rt0 s0 s1.
  split; [reflexivity|].
  split; [subst s0 rt0; destruct (m_cachedEyeInfo rt) as [e0 e1] eqn:He;
          destruct rt as [ic sc ps hi lp fh ei [f0 f1] ca pp ext];
          cbn in He; subst ei; reflexivity|].
  assert (Hg : parallelProjectionActive s0 = correctionActive rt) by reflexivity.
  split.
  - subst s1. unfold applyParallelProjection. rewrite Hg.
    subst s0 rt0.
    destruct (correctionActive rt);
      destruct rt as [ic sc ps hi lp fh [e0 e1] [f0 f1] ca pp ext]; reflexivity.
  - intros Hoff. rewrite updateEyeInfo_unroll. fold rt0.
    assert (H0 : parallelProjectionActive rt0 = false)
      by (unfold rt0; rewrite gate_round0; exact Hoff).
    rewrite (body_inactive 0 rt0 H0).
    rewrite (body_inactive 1); [|exact H0].
    subst rt0.
    destruct rt as [ic sc ps hi lp fh [e0 e1] [f0 f1] ca pp ext].
    split; reflexivity.
Qed.

(** C2.  The companion selects the parallel projection exactly when the
    canting angle is not zero and the configuration value of
    [steamvr_use_native_fov] is zero (the flag is false): a zero canting
    angle gives the native mode whatever the flag, a set flag gives the
    native mode whatever the angle.  The runtime's test of line 253 is the
    same condition once [m_useParallelProjection] is the negated flag. *)
Theorem parallel_projection_selection (c : float) (use_native_fov : Z)
    (rt : OpenXrRuntime) :
  (selectParallelProjection c use_native_fov = true <->
   feqb c fzero = false /\ use_native_fov = 0) /\
  (feqb c fzero = true -> selectParallelProjection c use_native_fov = false) /\
  (use_native_fov <> 0 -> selectParallelProjection c use_native_fov = false) /\
  (parallelProjectionActive rt = true <->
   m_useParallelProjection rt = true /\ feqb (m_cantingAngle rt) fzero = false) /\
  (m_useParallelProjection rt = useParallelProjectionFromConfig use_native_fov ->
   (parallelProjectionActive rt = true <->
    feqb (m_cantingAngle rt) fzero = false /\ use_native_fov = 0)).
Proof.
  assert (Hsel : forall (x : float) (v : Z),
             float_to_bool x && negb (truthy v) = true <->
             feqb x fzero = false /\ v = 0).
  { intros x v. unfold float_to_bool, truthy.
    rewrite andb_true_iff, negb_involutive, negb_true_iff, Z.eqb_eq. tauto. }
  unfold selectParallelProjection.
  split; [apply Hsel|].
  split; [intros Hz; unfold float_to_bool; rewrite Hz; reflexivity|].
  split; [intros Hv; unfold truthy; apply Z.eqb_neq in Hv; rewrite Hv;
          apply andb_false_r|].
  split.
  - unfold parallelProjectionActive, float_to_bool.
    rewrite andb_true_iff, negb_true_iff. tauto.
  - intros Hflag. unfold parallelProjectionActive, useParallelProjectionFromConfig in *.
    rewrite Hflag, andb_comm. apply Hsel.
Qed.

End GeometryFacts.

(* ===================================================================== *)
(** ** The companion's sizing query *)
(* ===================================================================== *)

Section CompanionFacts.
Context {FO : FloatOps} {PH : PvrHeaders}.

(** When every call to the service succeeds, [getRuntimeStatus] fills the
    status; the size it reports is the answer to the query at
    [fovForResolution]. *)
Lemma getRuntimeStatus_runs (svc : CompanionService) :
  let l := snd (c_getEyeRenderInfo_Left svc) in
  let r := snd (c_getEyeRenderInfo_Right svc) in
  let c := companionCantingAngle l r in
  let pp := selectParallelProjection c (c_steamvr_use_native_fov svc) in
  let query := c_getFovTextureSize svc (fovForResolution l c pp) in
  c_initialise svc = pvr_success ->
  c_createSession svc = pvr_success ->
  fst (c_getEyeDisplayInfo svc) = pvr_success ->
  fst (c_getEyeRenderInfo_Left svc) = pvr_success ->
  fst (c_getEyeRenderInfo_Right svc) = pvr_success ->
  fst query = pvr_success ->
  exists status,
    getRuntimeStatus svc = Some status /\
    valid status = true /\
    useParallelProjection status = pp /\
    fov status = companionFov l r c /\
    resolutionWidth status = to_uint32 (size_w (snd query)) /\
    resolutionHeight status = to_uint32 (size_h (snd query)).
Proof.
  intros l r c pp query H1 H2 H3 H4 H5 H6.
  unfold getRuntimeStatus. subst query pp c l r.
  rewrite H1, H2. cbn.
  destruct (c_getEyeDisplayInfo svc) as [r0 rate]; cbn in *; subst r0; cbn.
  destruct (c_getEyeRenderInfo_Left svc) as [r1 e0]; cbn in *; subst r1; cbn.
  destruct (c_getEyeRenderInfo_Right svc) as [r2 e1]; cbn in *; subst r2; cbn.
  destruct (c_getFovTextureSize svc _) as [r3 size]; cbn in *; subst r3; cbn.
  eexists. split; [reflexivity|]. cbn. repeat split; reflexivity.
Qed.

(** C9.  The field of view handed to the viewport-size query is, when the
    parallel projection is selected, the left eye's with
    [LeftTan = tan(atan(LeftTan) + cantingAngle)],
    [RightTan = tan(atan(RightTan) - cantingAngle)] and both vertical
    tangents taken 6 degrees further, [tan(atan(t) + 6 degrees)]; in native
    mode it is the left eye's field of view unchanged.  The reported
    resolution is the answer of the service for that field of view. *)
Theorem fovForResolution_by_mode (svc : CompanionService) :
  let l := snd (c_getEyeRenderInfo_Left svc) in
  let r := snd (c_getEyeRenderInfo_Right svc) in
  let c := companionCantingAngle l r in
  let pp := selectParallelProjection c (c_steamvr_use_native_fov svc) in
  let asked := fovForResolution l c pp in
  (pp = true ->
   asked =
     {| LeftTan := tanf (fadd (atanf (LeftTan (Fov l))) c);
        RightTan := tanf (fsub (atanf (RightTan (Fov l))) c);
        UpTan := tanf (fadd (atanf (UpTan (Fov l))) (DegreeToRad fsix));
        DownTan := tanf (fadd (atanf (DownTan (Fov l))) (DegreeToRad fsix)) |}) /\
  (pp = false -> asked = Fov l) /\
  (c_initialise svc = pvr_success ->
   c_createSession svc = pvr_success ->
   fst (c_getEyeDisplayInfo svc) = pvr_success ->
   fst (c_getEyeRenderInfo_Left svc) = pvr_success ->
   fst (c_getEyeRenderInfo_Right svc) = pvr_success ->
   fst (c_getFovTextureSize svc asked) = pvr_success ->
   exists status,
     getRuntimeStatus svc = Some status /\
     useParallelProjection status = pp /\
     resolutionWidth status = to_uint32 (size_w (snd (c_getFovTextureSize svc asked))) /\
     resolutionHeight status = to_uint32 (size_h (snd (c_getFovTextureSize svc asked)))).
Proof.
  intros l r c pp asked. split; [|split].
  - intros Hpp. subst asked. rewrite Hpp. reflexivity.
  - intros Hpp. subst asked. rewrite Hpp. reflexivity.
  - intros H1 H2 H3 H4 H5 H6.
    destruct (getRuntimeStatus_runs svc H1 H2 H3 H4 H5 H6)
      as (status & Hs & _ & Hp & _ & Hw & Hh).
    exists status. repeat split; assumption.
Qed.

End CompanionFacts.

(* ===================================================================== *)
(** ** Blend-mode enumeration *)
(* ===================================================================== *)

Section BlendModeFacts.
Context {FO : FloatOps} {PH : PvrHeaders}.

(** With valid arguments the first three tests of the call pass. *)
Lemma enumerate_valid (table : list XrEnvironmentBlendMode) (rt : OpenXrRuntime)
    (instance : XrInstance) (systemId : XrSystemId) (t : XrViewConfigurationType)
    (capacity count : N) (modes : option (list XrEnvironmentBlendMode)) :
  validEnumerateArgs rt instance systemId t ->
  enumerateBlendModesFrom table rt instance systemId t capacity count modes =
  if negb (N.eqb capacity 0) && N.ltb capacity (ARRAYSIZE table)
  then Some (mkEnumerateResult XR_ERROR_SIZE_INSUFFICIENT count modes)
  else
    match negb (N.eqb capacity 0), modes with
    | true, Some out =>
        match copyBlendModes table 0 (N.to_nat (ARRAYSIZE table)) out with
        | Some out' =>
            Some (mkEnumerateResult XR_SUCCESS (ARRAYSIZE table) (Some out'))
        | None => None
        end
    | _, _ => Some (mkEnumerateResult XR_SUCCESS (ARRAYSIZE table) modes)
    end.
Proof.
  intros (Hi & -> & Hs & -> & ->).
  unfold enumerateBlendModesFrom. rewrite Hi, Hs. reflexivity.
Qed.

(** No capacity is both nonzero and below the size of the shipped table. *)
Lemma shipped_table_never_insufficient (capacity : N) :
  negb (N.eqb capacity 0) && N.ltb capacity (ARRAYSIZE blendModes) = false.
Proof.
  unfold ARRAYSIZE, blendModes. cbn.
  destruct (N.eqb_spec capacity 0) as [->|Hne]; [reflexivity|].
  cbn. apply N.ltb_ge. lia.
Qed.

(** C5.  With valid handles and the stereo view configuration: a capacity
    of 0 succeeds with a count of 1 and leaves the array alone; a nonzero
    capacity below the number of supported modes is refused with
    [XR_ERROR_SIZE_INSUFFICIENT], count and array left alone (no such
    capacity exists for the one-entry table the runtime ships, so the
    refusal is stated for any table); a capacity of 1 or more, with an
    array of at least one cell, succeeds with a count of 1 and writes
    [XR_ENVIRONMENT_BLEND_MODE_OPAQUE] to the first cell and nothing
    else. *)
Theorem enumerateBlendModes_contract (rt : OpenXrRuntime) (instance : XrInstance)
    (systemId : XrSystemId) (t : XrViewConfigurationType)
    (capacity count : N) (modes : option (list XrEnvironmentBlendMode)) :
  validEnumerateArgs rt instance systemId t ->
  (capacity = 0%N ->
   xrEnumerateEnvironmentBlendModes rt instance systemId t capacity count modes =
   Some (mkEnumerateResult XR_SUCCESS 1 modes)) /\
  (forall table : list XrEnvironmentBlendMode,
   capacity <> 0%N -> (capacity < ARRAYSIZE table)%N ->
   enumerateBlendModesFrom table rt instance systemId t capacity count modes =
   Some (mkEnumerateResult XR_ERROR_SIZE_INSUFFICIENT count modes)) /\
  (forall r, xrEnumerateEnvironmentBlendModes rt instance systemId t capacity count modes
             = Some r -> er_result r = XR_SUCCESS) /\
  (forall (first : XrEnvironmentBlendMode) (rest : list XrEnvironmentBlendMode),
   (1 <= capacity)%N -> modes = Some (first :: rest) ->
   xrEnumerateEnvironmentBlendModes rt instance systemId t capacity count modes =
   Some (mkEnumerateResult XR_SUCCESS 1
           (Some (XR_ENVIRONMENT_BLEND_MODE_OPAQUE :: rest)))).
Proof.
  intros Hvalid. repeat split.
  - intros ->. unfold xrEnumerateEnvironmentBlendModes.
    rewrite (enumerate_valid _ _ _ _ _ _ _ _ Hvalid). reflexivity.
  - intros table Hne Hlt. rewrite (enumerate_valid _ _ _ _ _ _ _ _ Hvalid).
    apply N.eqb_neq in Hne. apply N.ltb_lt in Hlt. rewrite Hne, Hlt. reflexivity.
  - intros r. unfold xrEnumerateEnvironmentBlendModes.
    rewrite (enumerate_valid _ _ _ _ _ _ _ _ Hvalid).
    rewrite shipped_table_never_insufficient.
    destruct (negb (N.eqb capacity 0)); [|intros [= <-]; reflexivity].
    destruct modes as [out|]; [|intros [= <-]; reflexivity].
    destruct (copyBlendModes _ _ _ _); [intros [= <-]; reflexivity | discriminate].
  - intros first rest Hcap ->. unfold xrEnumerateEnvironmentBlendModes.
    rewrite (enumerate_valid _ _ _ _ _ _ _ _ Hvalid).
    rewrite shipped_table_never_insufficient.
    assert (Hne : N.eqb capacity 0 = false) by (apply N.eqb_neq; lia).
    rewrite Hne. reflexivity.
Qed.

(** C10.  With valid handles, the stereo view configuration, a nonzero
    capacity and a null array pointer, the call succeeds, stores the count
    and runs no round of the copy loop: the array is still the null
    pointer afterwards and nothing was stored through it. *)
Theorem enumerateBlendModes_null_array (rt : OpenXrRuntime) (instance : XrInstance)
    (systemId : XrSystemId) (t : XrViewConfigurationType) (capacity count : N) :
  validEnumerateArgs rt instance systemId t ->
  capacity <> 0%N ->
  xrEnumerateEnvironmentBlendModes rt instance systemId t capacity count None =
  Some (mkEnumerateResult XR_SUCCESS 1 None).
Proof.
  intros Hvalid Hne. unfold xrEnumerateEnvironmentBlendModes.
  rewrite (enumerate_valid _ _ _ _ _ _ _ _ Hvalid).
  rewrite shipped_table_never_insufficient.
  destruct (negb (N.eqb capacity 0)); reflexivity.
Qed.

End BlendModeFacts.

(* ===================================================================== *)
(** ** System acquisition *)
(* ===================================================================== *)

Section AcquisitionFacts.
Context {FO : FloatOps} {PH : PvrHeaders}.

Lemma CHECK_PVRCMD_run (r : pvrResult) (rt : OpenXrRuntime) :
  CHECK_PVRCMD r rt = (if pvrResult_eqb r pvr_success then inl tt else inr (Throw r), rt).
Proof. destruct r; reflexivity. Qed.

Lemma updateEyeInfo_body_frame (i : nat) (rt : OpenXrRuntime) :
  m_systemCreated (updateEyeInfo_body i rt) = m_systemCreated rt /\
  m_instanceCreated (updateEyeInfo_body i rt) = m_instanceCreated rt /\
  m_pvrSession (updateEyeInfo_body i rt) = m_pvrSession rt /\
  m_cachedHmdInfo (updateEyeInfo_body i rt) = m_cachedHmdInfo rt /\
  m_floorHeight (updateEyeInfo_body i rt) = m_floorHeight rt.
Proof.
  unfold updateEyeInfo_body, applyParallelProjection, assignFovFromTangents.
  destruct (parallelProjectionActive _); repeat split; reflexivity.
Qed.

(** [updateEyeInfo] writes the eye info, the angles and the canting angle
    only. *)
Lemma updateEyeInfo_frame (rt : OpenXrRuntime) :
  m_systemCreated (updateEyeInfo rt) = m_systemCreated rt /\
  m_instanceCreated (updateEyeInfo rt) = m_instanceCreated rt /\
  m_pvrSession (updateEyeInfo rt) = m_pvrSession rt /\
  m_cachedHmdInfo (updateEyeInfo rt) = m_cachedHmdInfo rt /\
  m_floorHeight (updateEyeInfo rt) = m_floorHeight rt.
Proof.
  rewrite updateEyeInfo_unroll.
  destruct (updateEyeInfo_body_frame 1
              (updateEyeInfo_body 0
                 (set_m_cantingAngle (cantingAngleOf (m_cachedEyeInfo rt)) rt)))
    as (-> & -> & -> & -> & ->).
  destruct (updateEyeInfo_body_frame 0
              (set_m_cantingAngle (cantingAngleOf (m_cachedEyeInfo rt)) rt))
    as (-> & -> & -> & -> & ->).
  repeat split; reflexivity.
Qed.

(** The statements before the identity query write the session handle and
    nothing else; they leave only through a [return] of an error code or a
    failed [CHECK_PVRCMD]. *)
Lemma xrGetSystem_gate_frame (svc : PvrService) (instance : XrInstance)
    (getInfo : XrSystemGetInfo) (rt : OpenXrRuntime) :
  let rt' := snd (xrGetSystem_gate svc instance getInfo rt) in
  m_systemCreated rt' = m_systemCreated rt /\ snapshot rt' = snapshot rt.
Proof.
  unfold xrGetSystem_gate, createPvrSession, checkHmdPresence, bind, get, modify,
    return_if, leave, ret.
  destruct (XrStructureType_eqb _ _); cbn; [|split; reflexivity].
  destruct (negb (m_instanceCreated rt) || negb (N.eqb instance 1));
    cbn; [split; reflexivity|].
  destruct (is_hmd _); cbn; [|split; reflexivity].
  destruct (pvr_getHmdStatus svc) as [rs status].
  destruct (Z.eqb (m_pvrSession rt) 0); cbn.
  - destruct (pvr_createSession svc) as [rc h]. cbn.
    destruct (pvrResult_eqb rc pvr_rpc_failed); cbn; [split; reflexivity|].
    rewrite CHECK_PVRCMD_run.
    destruct (pvrResult_eqb rc pvr_success); cbn; [|split; reflexivity].
    rewrite CHECK_PVRCMD_run.
    destruct (pvrResult_eqb rs pvr_success); cbn; [|split; reflexivity].
    destruct (negb _); cbn; split; reflexivity.
  - rewrite CHECK_PVRCMD_run.
    destruct (pvrResult_eqb rs pvr_success); cbn; [|split; reflexivity].
    destruct (negb _); cbn; split; reflexivity.
Qed.

(** The refresh sets [m_systemCreated] in its last statements only: when
    it leaves early the flag is as before, and it leaves early through a
    failed [CHECK_PVRCMD] only. *)
Lemma xrGetSystem_refresh_outcome (svc : PvrService) (rt : OpenXrRuntime) :
  match xrGetSystem_refresh svc rt with
  | (inl id, rt') => id = the_system /\ m_systemCreated rt' = true
  | (inr e, rt') => isFatal e = true /\ m_systemCreated rt' = m_systemCreated rt
  end.
Proof.
  unfold xrGetSystem_refresh, queryHmdProperties, cacheCommonInformation,
    bind, get, modify, ret.
  destruct (pvr_getHmdInfo svc) as [ri info].
  destruct (pvr_getEyeRenderInfo_Left svc) as [rl el].
  destruct (pvr_getEyeRenderInfo_Right svc) as [rr er].
  cbn -[updateEyeInfo].
  destruct ri; cbn -[updateEyeInfo]; try (split; reflexivity).
  destruct (negb (m_loggedProductName rt)); cbn -[updateEyeInfo].
  all: destruct rl; cbn -[updateEyeInfo]; try (split; reflexivity).
  all: destruct rr; cbn -[updateEyeInfo]; try (split; reflexivity).
  all: destruct (pvr_setTrackingOriginType svc); cbn -[updateEyeInfo];
    split; try reflexivity;
    rewrite (proj1 (updateEyeInfo_frame _)); reflexivity.
Qed.

Lemma xrGetSystem_gate_exit (svc : PvrService) (instance : XrInstance)
    (getInfo : XrSystemGetInfo) (rt rt0 : OpenXrRuntime) (e : Exit) :
  xrGetSystem_gate svc instance getInfo rt = (inr e, rt0) ->
  xrGetSystem svc instance getInfo rt = (e, None, rt0).
Proof.
  intros Hg. unfold xrGetSystem, xrGetSystem_body, bind. rewrite Hg. reflexivity.
Qed.

Lemma xrGetSystem_gate_pass (svc : PvrService) (instance : XrInstance)
    (getInfo : XrSystemGetInfo) (rt rt0 : OpenXrRuntime) :
  xrGetSystem_gate svc instance getInfo rt = (inl tt, rt0) ->
  xrGetSystem svc instance getInfo rt =
  match xrGetSystem_refresh svc rt0 with
  | (inl id, rt') => (Return XR_SUCCESS, Some id, rt')
  | (inr e, rt') => (e, None, rt')
  end.
Proof.
  intros Hg. unfold xrGetSystem, xrGetSystem_body, bind. rewrite Hg. reflexivity.
Qed.

(** With a valid request the gate is the session creation followed by
    the presence check. *)
Lemma xrGetSystem_gate_valid (svc : PvrService) (getInfo : XrSystemGetInfo)
    (rt : OpenXrRuntime) :
  gi_type getInfo = XR_TYPE_SYSTEM_GET_INFO ->
  m_instanceCreated rt = true ->
  gi_formFactor getInfo = XR_FORM_FACTOR_HEAD_MOUNTED_DISPLAY ->
  xrGetSystem_gate svc the_instance getInfo rt =
  bind (createPvrSession svc) (fun _ => checkHmdPresence svc) rt.
Proof.
  intros Ht Hi Hf. unfold xrGetSystem_gate, bind, get, return_if, ret.
  rewrite Ht. cbn. rewrite Hi. cbn. rewrite Hf. reflexivity.
Qed.

(** C6.  For a valid instance and the head-mounted form factor: if no
    session exists and its creation fails with [pvr_rpc_failed], or if a
    session exists (or is created) and the status query answers without
    both [ServiceReady] and [HmdPresent], the call returns
    [XR_ERROR_FORM_FACTOR_UNAVAILABLE].  This is a returned code, not a
    fatal error; nothing is stored through [systemId], and
    [m_systemCreated] and the cached snapshot are as before. *)
Theorem xrGetSystem_unavailable (svc : PvrService) (getInfo : XrSystemGetInfo)
    (rt : OpenXrRuntime) :
  let out := xrGetSystem svc the_instance getInfo rt in
  let status := snd (pvr_getHmdStatus svc) in
  gi_type getInfo = XR_TYPE_SYSTEM_GET_INFO ->
  m_instanceCreated rt = true ->
  gi_formFactor getInfo = XR_FORM_FACTOR_HEAD_MOUNTED_DISPLAY ->
  (m_pvrSession rt = 0 /\ fst (pvr_createSession svc) = pvr_rpc_failed) \/
  ((m_pvrSession rt <> 0 \/ fst (pvr_createSession svc) = pvr_success) /\
   fst (pvr_getHmdStatus svc) = pvr_success /\
   truthy (ServiceReady status) && truthy (HmdPresent status) = false) ->
  fst (fst out) = Return XR_ERROR_FORM_FACTOR_UNAVAILABLE /\
  resultOf (fst (fst out)) = XR_ERROR_FORM_FACTOR_UNAVAILABLE /\
  isFatal (fst (fst out)) = false /\
  snd (fst out) = None /\
  m_systemCreated (snd out) = m_systemCreated rt /\
  snapshot (snd out) = snapshot rt.
Proof.
  intros out status Ht Hi Hf Hcase.
  assert (Hexit : exists rt0,
             xrGetSystem_gate svc the_instance getInfo rt =
             (inr (Return XR_ERROR_FORM_FACTOR_UNAVAILABLE), rt0)).
  { rewrite (xrGetSystem_gate_valid svc getInfo rt Ht Hi Hf).
    unfold createPvrSession, checkHmdPresence, bind, get, modify, return_if,
      leave, ret.
    subst status.
    destruct (pvr_getHmdStatus svc) as [rs st].
    destruct (pvr_createSession svc) as [rc h]. cbn in Hcase.
    destruct Hcase as [[Hnull Hrpc] | (Hsess & Hrs & Hst)].
    - rewrite Hnull, Hrpc. cbn. eexists; reflexivity.
    - rewrite Hrs, Hst.
      destruct (Z.eqb_spec (m_pvrSession rt) 0) as [Hz|Hnz].
      + destruct Hsess as [Hnz|Hok]; [contradiction|].
        rewrite Hok. cbn. eexists; reflexivity.
      + cbn. eexists; reflexivity. }
  destruct Hexit as [rt0 Hexit].
  pose proof (xrGetSystem_gate_frame svc the_instance getInfo rt) as Hframe.
  rewrite Hexit in Hframe. cbn in Hframe. destruct Hframe as [Hc Hs].
  subst out. rewrite (xrGetSystem_gate_exit _ _ _ _ _ _ Hexit). cbn.
  repeat split; assumption.
Qed.

(** C7, as the code has it.  A call that does not succeed stores nothing
    through [systemId] and leaves [m_systemCreated] as it was.  The cached
    snapshot is as it was whenever the call ends before the identity
    query, in particular whenever it returns an error code of its own;
    a fatal failure of a later service call leaves in the cache what the
    earlier calls of the refresh have written. *)
Theorem xrGetSystem_failure_keeps_created (svc : PvrService) (instance : XrInstance)
    (getInfo : XrSystemGetInfo) (rt : OpenXrRuntime) :
  let out := xrGetSystem svc instance getInfo rt in
  succeeded (fst (fst out)) = false ->
  snd (fst out) = None /\
  m_systemCreated (snd out) = m_systemCreated rt /\
  (forall e0 rt0,
     xrGetSystem_gate svc instance getInfo rt = (inr e0, rt0) ->
     snapshot (snd out) = snapshot rt) /\
  (isFatal (fst (fst out)) = false -> snapshot (snd out) = snapshot rt).
Proof.
  intros out Hfail.
  pose proof (xrGetSystem_gate_frame svc instance getInfo rt) as Hframe.
  destruct (xrGetSystem_gate svc instance getInfo rt) as [[[]|e] rt0] eqn:Hg;
    cbn in Hframe; destruct Hframe as [Hc Hs].
  - subst out. rewrite (xrGetSystem_gate_pass _ _ _ _ _ Hg) in *.
    pose proof (xrGetSystem_refresh_outcome svc rt0) as Hr.
    destruct (xrGetSystem_refresh svc rt0) as [[id|e] rt1].
    + discriminate Hfail.
    + destruct Hr as [Hfatal Hcreated]. cbn.
      split; [reflexivity|]. split; [congruence|].
      split; [intros e0 rt2 [=] | intros Hnf; congruence].
  - subst out. rewrite (xrGetSystem_gate_exit _ _ _ _ _ _ Hg) in *. cbn.
    split; [reflexivity|]. split; [exact Hc|].
    split; [intros e0 rt2 _; exact Hs | intros _; exact Hs].
Qed.

(* ===================================================================== *)
(** ** System properties: the extension chain *)
(* ===================================================================== *)

(** When the extension is not enabled the pointer is never advanced: it
    is [properties->next], and the first structure of a chain that is not
    empty is written, whatever its type. *)
Lemma fill_not_negotiated (b : ChainBlock) (rest : list ChainBlock) :
  fillHandTracking (handTrackingProperties false (b :: rest)) (b :: rest) =
  set_supportsHandTracking XR_TRUE b :: rest.
Proof. reflexivity. Qed.

Lemma walkChain_bounds (chain : list ChainBlock) (pos i : nat) :
  walkChain chain pos = Some i ->
  (pos <= i)%nat /\
  exists b, chain !! (i - pos)%nat = Some b /\
    XrStructureType_eqb (blk_type b) XR_TYPE_SYSTEM_HAND_TRACKING_PROPERTIES_EXT = true.
Proof.
  revert pos. induction chain as [|b rest IH]; intros pos Hw; [discriminate|].
  cbn in Hw.
  destruct (XrStructureType_eqb (blk_type b) _) eqn:Hb.
  - injection Hw as <-. split; [lia|]. exists b.
    rewrite Nat.sub_diag. split; [reflexivity | exact Hb].
  - destruct (IH _ Hw) as (Hle & b' & Hlk & Hty).
    split; [lia|]. exists b'. split; [|exact Hty].
    replace (i - pos)%nat with (S (i - S pos)) by lia. exact Hlk.
Qed.

(** When the extension is enabled, a structure whose tag is not the
    hand-tracking tag is left as it is, wherever it stands in the chain. *)
Lemma fill_negotiated_keeps_others (chain : list ChainBlock) (j : nat) (b : ChainBlock) :
  chain !! j = Some b ->
  XrStructureType_eqb (blk_type b) XR_TYPE_SYSTEM_HAND_TRACKING_PROPERTIES_EXT = false ->
  fillHandTracking (handTrackingProperties true chain) chain !! j = Some b.
Proof.
  intros Hj Hty. unfold handTrackingProperties, fillHandTracking.
  destruct (walkChain chain 0) as [i|] eqn:Hw; [|exact Hj].
  destruct (walkChain_bounds _ _ _ Hw) as (_ & b' & Hlk & Hty').
  rewrite Nat.sub_0_r in Hlk.
  destruct (Nat.eq_dec i j) as [->|Hne].
  - rewrite Hj in Hlk. injection Hlk as ->. congruence.
  - rewrite list_lookup_alter_ne by exact Hne. exact Hj.
Qed.

End AcquisitionFacts.

(* ===================================================================== *)
(** ** The theorems at concrete inputs, over the reals *)
(* ===================================================================== *)

Section RealExamples.
Import RealModel.
#[local] Existing Instance ops.
#[local] Existing Instance headers.
Local Open Scope R_scope.

Lemma Rfeqb_false (x : R) : x <> 0 -> Rfeqb x 0 = false.
Proof. intros Hx. unfold Rfeqb. destruct (Req_dec_T x 0); [contradiction | reflexivity]. Qed.

Lemma Rfeqb_refl (x : R) : Rfeqb x x = true.
Proof. unfold Rfeqb. destruct (Req_dec_T x x); [reflexivity | contradiction]. Qed.


(** A quarter turn is an angle of [PI / 2]. *)
Lemma angle_ahead_turned : (Quatf_Angle q_ahead q_turned : R) = PI / 2.
Proof.
  unfold Quatf_Angle, headers, dot, q_ahead, q_turned; cbn [qx qy qz qw].
  replace (0 * 0 + 0 * / sqrt 2 + 0 * 0 + 1 * / sqrt 2) with (/ sqrt 2) by ring.
  assert (Hpos : 0 < / sqrt 2) by (apply Rinv_0_lt_compat, sqrt_lt_R0; lra).
  rewrite (Rabs_pos_eq _ (Rlt_le _ _ Hpos)), acos_inv_sqrt2. field.
Qed.

Lemma canting_ahead_turned :
  (cantingAngleOf (m_cachedEyeInfo (runtime q_ahead q_turned true)) : R) = PI / 4.
Proof.
  unfold cantingAngleOf. cbn [runtime m_cachedEyeInfo sget view0 view1 eyeOrientation
    eye HmdToEyePose Orientation].
  rewrite angle_ahead_turned. cbn [fdiv ftwo ops]. field.
Qed.

Lemma canting_ahead_turned_nonzero :
  feqb (cantingAngleOf (m_cachedEyeInfo (runtime q_ahead q_turned true))) fzero = false.
Proof.
  rewrite canting_ahead_turned. apply Rfeqb_false.
  pose proof PI_RGT_0. lra.
Qed.

Lemma companion_canting_nonzero :
  float_to_bool (companionCantingAngle (eye q_ahead) (eye q_turned)) = true.
Proof.
  unfold float_to_bool, companionCantingAngle.
  cbn [eyeOrientation eye HmdToEyePose Orientation].
  rewrite angle_ahead_turned. cbn [feqb fdiv ftwo fzero ops].
  rewrite Rfeqb_false; [reflexivity|]. pose proof PI_RGT_0. lra.
Qed.

(** C1 at a headset whose right eye is turned by a quarter turn. *)
Lemma updateEyeInfo_parallel_projection_witness :
  let rt := updateEyeInfo (runtime q_ahead q_turned true) in
  eyeOrientation (sget 0 (m_cachedEyeInfo rt)) = Quatf_Identity /\
  eyeOrientation (sget 1 (m_cachedEyeInfo rt)) = Quatf_Identity /\
  angleLeft (sget 0 (m_cachedEyeFov rt)) = fadd (fneg (atanf 1)) (fneg (m_cantingAngle rt)) /\
  angleUp (sget 1 (m_cachedEyeFov rt)) = fadd (atanf 1) (DegreeToRad fsix).
Proof.
  intros rt.
  pose proof (updateEyeInfo_parallel_projection (runtime q_ahead q_turned true)
                eq_refl canting_ahead_turned_nonzero) as H.
  cbv zeta in H. destruct H as (Hc & H0 & H1 & _ & _ & Hl & Hr).
  subst rt. rewrite Hc, Hl, Hr.
  split; [exact H0|]. split; [exact H1|]. split; reflexivity.
Defined.

(** C2 at a canting angle of [PI / 4], with the flag clear and set, and at
    a canting angle of zero. *)
Lemma parallel_projection_selection_witness :
  selectParallelProjection (PI / 4) 0 = true /\
  selectParallelProjection (PI / 4) 1 = false /\
  selectParallelProjection 0 0 = false.
Proof.
  assert (Hnz : feqb (PI / 4 : R) fzero = false).
  { apply Rfeqb_false. pose proof PI_RGT_0. lra. }
  split; [|split].
  - apply (proj1 (@parallel_projection_selection ops (PI / 4) 0%Z
                    (runtime q_ahead q_turned true))).
    split; [exact Hnz | reflexivity].
  - apply (proj1 (proj2 (proj2 (@parallel_projection_selection ops (PI / 4) 1%Z
                                  (runtime q_ahead q_turned true))))).
    discriminate.
  - apply (proj1 (proj2 (@parallel_projection_selection ops 0 0%Z
                           (runtime q_ahead q_turned true)))).
    apply Rfeqb_refl.
Defined.

(** C4 at a canted headset with the correction switched off. *)
Lemma eye_fov_from_tangents_witness :
  let rt := runtime q_ahead q_turned false in
  m_cachedEyeFov (updateEyeInfo rt) =
    mkStereo (mkXrFovf (fneg (atanf 1)) (atanf 1) (atanf 1) (fneg (atanf 1)))
             (mkXrFovf (fneg (atanf 1)) (atanf 1) (atanf 1) (fneg (atanf 1))).
Proof.
  intros rt.
  destruct (eye_fov_from_tangents rt) as (_ & _ & _ & Hnative).
  destruct (Hnative eq_refl) as [Hfov _].
  rewrite Hfov. reflexivity.
Defined.

Lemma runtime_valid (l r : Quatf) (pp : bool) :
  validEnumerateArgs (runtime l r pp) the_instance the_system
    XR_VIEW_CONFIGURATION_TYPE_PRIMARY_STEREO.
Proof. repeat split. Qed.

(** C5 at a probe, at a two-entry table asked with room for one, and at
    an array of two cells. *)
Lemma enumerateBlendModes_contract_witness :
  let rt := runtime q_ahead q_turned true in
  let stereo := XR_VIEW_CONFIGURATION_TYPE_PRIMARY_STEREO in
  let two := [XR_ENVIRONMENT_BLEND_MODE_ADDITIVE; XR_ENVIRONMENT_BLEND_MODE_ALPHA_BLEND] in
  xrEnumerateEnvironmentBlendModes rt the_instance the_system stereo 0%N 7%N (Some two) =
    Some (mkEnumerateResult XR_SUCCESS 1 (Some two)) /\
  enumerateBlendModesFrom
    [XR_ENVIRONMENT_BLEND_MODE_OPAQUE; XR_ENVIRONMENT_BLEND_MODE_ADDITIVE]
    rt the_instance the_system stereo 1%N 7%N (Some two) =
    Some (mkEnumerateResult XR_ERROR_SIZE_INSUFFICIENT 7 (Some two)) /\
  xrEnumerateEnvironmentBlendModes rt the_instance the_system stereo 2%N 7%N (Some two) =
    Some (mkEnumerateResult XR_SUCCESS 1
            (Some [XR_ENVIRONMENT_BLEND_MODE_OPAQUE;
                   XR_ENVIRONMENT_BLEND_MODE_ALPHA_BLEND])).
Proof.
  intros rt stereo two.
  split; [|split].
  - apply (proj1 (enumerateBlendModes_contract rt the_instance the_system stereo
                    0%N 7%N (Some two) (runtime_valid _ _ _))).
    reflexivity.
  - apply (proj1 (proj2 (enumerateBlendModes_contract rt the_instance the_system stereo
                           1%N 7%N (Some two) (runtime_valid _ _ _)))).
    + discriminate.
    + reflexivity.
  - apply (proj2 (proj2 (proj2 (enumerateBlendModes_contract rt the_instance the_system
                                  stereo 2%N 7%N (Some two) (runtime_valid _ _ _))))
             XR_ENVIRONMENT_BLEND_MODE_ADDITIVE
             [XR_ENVIRONMENT_BLEND_MODE_ALPHA_BLEND]).
    + lia.
    + reflexivity.
Defined.

(** C10 at a capacity of 1 and a null array. *)
Lemma enumerateBlendModes_null_array_witness :
  xrEnumerateEnvironmentBlendModes (runtime q_ahead q_turned true) the_instance
    the_system XR_VIEW_CONFIGURATION_TYPE_PRIMARY_STEREO 1%N 7%N None =
  Some (mkEnumerateResult XR_SUCCESS 1 None).
Proof.
  apply enumerateBlendModes_null_array; [apply runtime_valid | discriminate].
Defined.

(** C6 at a service that cannot be reached, and at a headset that is not
    plugged in. *)
Lemma xrGetSystem_unavailable_witness :
  fst (fst (xrGetSystem service_down the_instance getInfo_hmd fresh_runtime)) =
    Return XR_ERROR_FORM_FACTOR_UNAVAILABLE /\
  m_systemCreated
    (snd (xrGetSystem service_down the_instance getInfo_hmd fresh_runtime)) = false /\
  fst (fst (xrGetSystem (service status_absent pvr_success) the_instance getInfo_hmd
              (runtime q_ahead q_turned true))) =
    Return XR_ERROR_FORM_FACTOR_UNAVAILABLE /\
  snapshot (snd (xrGetSystem (service status_absent pvr_success) the_instance getInfo_hmd
                   (runtime q_ahead q_turned true))) =
    snapshot (runtime q_ahead q_turned true).
Proof.
  destruct (xrGetSystem_unavailable service_down getInfo_hmd fresh_runtime
              eq_refl eq_refl eq_refl (or_introl (conj eq_refl eq_refl)))
    as (Hr & _ & _ & _ & Hc & _).
  assert (Hsess : m_pvrSession (runtime q_ahead q_turned true) <> 0%Z) by discriminate.
  destruct (xrGetSystem_unavailable (service status_absent pvr_success) getInfo_hmd
              (runtime q_ahead q_turned true) eq_refl eq_refl eq_refl
              (or_intror (conj (or_introl Hsess) (conj eq_refl eq_refl))))
    as (Hr' & _ & _ & _ & _ & Hs').
  split; [exact Hr|]. split; [rewrite Hc; reflexivity|].
  split; [exact Hr' | exact Hs'].
Defined.

(** The call whose right-eye query fails, on a system already created. *)
Lemma failed_refresh_outcome :
  xrGetSystem (service status_ready (pvr_failure 1)) the_instance getInfo_hmd
    (runtime q_ahead q_turned true) =
  (Throw (pvr_failure 1), None,
   set_m_cachedEyeInfo (mkStereo (eye q_ahead) (eye q_turned))
     (set_m_floorHeight 0
        (set_m_cachedHmdInfo (hmd "Pimax Crystal") (runtime q_ahead q_turned true)))).
Proof. reflexivity. Qed.

(** C7 at that call, and at a headset that is not plugged in. *)
Lemma xrGetSystem_failure_keeps_created_witness :
  m_systemCreated
    (snd (xrGetSystem (service status_ready (pvr_failure 1)) the_instance getInfo_hmd
            (runtime q_ahead q_turned true))) = true /\
  snapshot (snd (xrGetSystem (service status_absent pvr_success) the_instance getInfo_hmd
                   (runtime q_ahead q_turned true))) =
    snapshot (runtime q_ahead q_turned true).
Proof.
  split.
  - assert (Hfail : succeeded
              (fst (fst (xrGetSystem (service status_ready (pvr_failure 1)) the_instance
                           getInfo_hmd (runtime q_ahead q_turned true)))) = false)
      by (rewrite failed_refresh_outcome; reflexivity).
    destruct (xrGetSystem_failure_keeps_created _ _ _ _ Hfail) as (_ & Hc & _).
    rewrite Hc. reflexivity.
  - assert (Hfail : succeeded
              (fst (fst (xrGetSystem (service status_absent pvr_success) the_instance
                           getInfo_hmd (runtime q_ahead q_turned true)))) = false)
      by reflexivity.
    destruct (xrGetSystem_failure_keeps_created _ _ _ _ Hfail) as (_ & _ & _ & Hsnap).
    apply Hsnap. reflexivity.
Defined.

(** C7 as the spec states it fails: the right-eye query fails on a system
    already created, the call fails, and the cached identity is no longer
    the one cached before the call. *)
Lemma xrGetSystem_failed_refresh_overwrites :
  let rt := runtime q_ahead q_turned true in
  let out := xrGetSystem (service status_ready (pvr_failure 1)) the_instance
               getInfo_hmd rt in
  succeeded (fst (fst out)) = false /\
  m_systemCreated (snd out) = m_systemCreated rt /\
  ProductName (m_cachedHmdInfo rt) = "Pimax 8KX"%string /\
  ProductName (m_cachedHmdInfo (snd out)) = "Pimax Crystal"%string /\
  snapshot (snd out) <> snapshot rt.
Proof.
  intros rt out. subst out rt. rewrite failed_refresh_outcome.
  repeat split. intros Heq. apply (f_equal (fun s => ProductName (fst (fst (fst (fst s)))))) in Heq.
  discriminate Heq.
Qed.

(** C8, the call at which the code departs from it: the extension is not
    enabled, the chain holds one structure that is not a hand-tracking
    block, and the call stores [XR_TRUE] in it. *)
Theorem xrGetSystemProperties_fills_unrelated_block :
  let rt := runtime q_ahead q_turned true in
  let out := xrGetSystemProperties rt the_instance the_system
               (properties [eye_gaze_block]) in
  has_XR_EXT_hand_tracking rt = false /\
  blk_type eye_gaze_block <> XR_TYPE_SYSTEM_HAND_TRACKING_PROPERTIES_EXT /\
  fst out = XR_SUCCESS /\
  sp_next (snd out) = [mkBlock (XR_TYPE_OTHER 1000030000) XR_TRUE] /\
  sp_next (snd out) <> [eye_gaze_block].
Proof.
  cbv zeta. repeat split; discriminate.
Qed.

Lemma companion_selects (use_native_fov : Z) :
  selectParallelProjection (companionCantingAngle (eye q_ahead) (eye q_turned))
    use_native_fov = negb (truthy use_native_fov).
Proof.
  unfold selectParallelProjection. rewrite companion_canting_nonzero. reflexivity.
Qed.

(** C9 at a canted headset, with the flag clear and with the flag set. *)
Lemma fovForResolution_by_mode_witness :
  let c := companionCantingAngle (eye q_ahead) (eye q_turned) in
  fovForResolution (eye q_ahead) c
    (selectParallelProjection c (c_steamvr_use_native_fov (companion_service 0))) =
    {| LeftTan := tanf (fadd (atanf 1) c);
       RightTan := tanf (fsub (atanf 1) c);
       UpTan := tanf (fadd (atanf 1) (DegreeToRad fsix));
       DownTan := tanf (fadd (atanf 1) (DegreeToRad fsix)) |} /\
  fovForResolution (eye q_ahead) c
    (selectParallelProjection c (c_steamvr_use_native_fov (companion_service 1))) =
    Fov (eye q_ahead) /\
  (exists status,
     getRuntimeStatus (companion_service 0) = Some status /\
     useParallelProjection status = true /\
     resolutionWidth status = 3840%Z /\ resolutionHeight status = 2160%Z).
Proof.
  intros c.
  destruct (fovForResolution_by_mode (companion_service 0)) as (Hpp & _ & Hrun).
  destruct (fovForResolution_by_mode (companion_service 1)) as (_ & Hnative & _).
  split; [|split].
  - apply Hpp. apply (companion_selects 0).
  - apply Hnative. apply (companion_selects 1).
  - destruct (Hrun eq_refl eq_refl eq_refl eq_refl eq_refl eq_refl)
      as (status & Hs & Hp & Hw & Hh).
    exists status. split; [exact Hs|].
    split; [rewrite Hp; apply (companion_selects 0)|].
    split; [rewrite Hw | rewrite Hh]; reflexivity.
Defined.

End RealExamples.

(* ===================================================================== *)
(** ** The canting angle of identical orientations *)
(* ===================================================================== *)

Section CantingFacts.
Import RealModel SpecAngle.
#[local] Existing Instance ops.
Local Open Scope R_scope.






End CantingFacts.

(* ===================================================================== *)
(** ** More on [updateEyeInfo] *)
(* ===================================================================== *)

Section UpdateEyeInfoFacts.
Context {FO : FloatOps} {PH : PvrHeaders}.

(** Two runtime objects with the same members are the same. *)
Lemma runtime_ext (a b : OpenXrRuntime) :
  m_instanceCreated a = m_instanceCreated b ->
  m_systemCreated a = m_systemCreated b ->
  m_pvrSession a = m_pvrSession b ->
  m_cachedHmdInfo a = m_cachedHmdInfo b ->
  m_loggedProductName a = m_loggedProductName b ->
  m_floorHeight a = m_floorHeight b ->
  m_cachedEyeInfo a = m_cachedEyeInfo b ->
  m_cachedEyeFov a = m_cachedEyeFov b ->
  m_cantingAngle a = m_cantingAngle b ->
  m_useParallelProjection a = m_useParallelProjection b ->
  has_XR_EXT_hand_tracking a = has_XR_EXT_hand_tracking b ->
  a = b.
Proof.
  destruct a, b; cbn; intros; subst; reflexivity.
Qed.

Lemma updateEyeInfo_body_flags (i : nat) (rt : OpenXrRuntime) :
  m_loggedProductName (updateEyeInfo_body i rt) = m_loggedProductName rt /\
  has_XR_EXT_hand_tracking (updateEyeInfo_body i rt) = has_XR_EXT_hand_tracking rt.
Proof.
  unfold updateEyeInfo_body, applyParallelProjection, assignFovFromTangents.
  destruct (parallelProjectionActive _); split; reflexivity.
Qed.

Lemma updateEyeInfo_flags (rt : OpenXrRuntime) :
  m_loggedProductName (updateEyeInfo rt) = m_loggedProductName rt /\
  has_XR_EXT_hand_tracking (updateEyeInfo rt) = has_XR_EXT_hand_tracking rt /\
  m_useParallelProjection (updateEyeInfo rt) = m_useParallelProjection rt.
Proof.
  rewrite updateEyeInfo_unroll.
  set (rt0 := set_m_cantingAngle (cantingAngleOf (m_cachedEyeInfo rt)) rt).
  destruct (updateEyeInfo_body_flags 1 (updateEyeInfo_body 0 rt0)) as [-> ->].
  destruct (updateEyeInfo_body_flags 0 rt0) as [-> ->].
  rewrite (proj2 (body_keeps_gate 1 _)), (proj2 (body_keeps_gate 0 _)).
  repeat split; reflexivity.
Qed.

(** The eye info and the angles after [updateEyeInfo], in both modes. *)
Lemma updateEyeInfo_geometry (rt : OpenXrRuntime) :
  let l := sget 0 (m_cachedEyeInfo rt) in
  let r := sget 1 (m_cachedEyeInfo rt) in
  let c := cantingAngleOf (m_cachedEyeInfo rt) in
  let shifted := fun (e : pvrEyeRenderInfo) (angle : float) =>
    {| angleLeft := fadd (fneg (atanf (LeftTan (Fov e)))) angle;
       angleRight := fadd (atanf (RightTan (Fov e))) angle;
       angleUp := fadd (atanf (UpTan (Fov e))) (DegreeToRad fsix);
       angleDown := fsub (fneg (atanf (DownTan (Fov e)))) (DegreeToRad fsix) |} in
  m_cachedEyeInfo (updateEyeInfo rt) =
    (if correctionActive rt
     then mkStereo (set_Orientation Quatf_Identity l) (set_Orientation Quatf_Identity r)
     else m_cachedEyeInfo rt) /\
  m_cachedEyeFov (updateEyeInfo rt) =
    (if correctionActive rt
     then mkStereo (shifted l (fneg c)) (shifted r c)
     else mkStereo (fovFromTangents l) (fovFromTangents r)).
Proof.
  intros l r c shifted.
  rewrite updateEyeInfo_unroll.
  set (rt0 := set_m_cantingAngle (cantingAngleOf (m_cachedEyeInfo rt)) rt).
  pose proof (gate_round0 rt) as G0. fold rt0 in G0.
  pose proof (gate_round1 rt) as G1. fold rt0 in G1.
  destruct (correctionActive rt) eqn:Hact.
  - destruct (body_active 1 (updateEyeInfo_body 0 rt0) G1) as [Hi1 Hf1].
    destruct (body_active 0 rt0 G0) as [Hi0 Hf0].
    rewrite (proj1 (body_keeps_gate 0 rt0)) in Hf1.
    rewrite Hi0 in Hi1, Hf1. rewrite Hf0 in Hf1.
    rewrite Hi1, Hf1.
    change (m_cachedEyeInfo rt0) with (m_cachedEyeInfo rt).
    change (m_cantingAngle rt0) with c.
    subst l r shifted. destruct (m_cachedEyeInfo rt) as [e0 e1].
    split; reflexivity.
  - rewrite (body_inactive 0 rt0 G0).
    rewrite (body_inactive 1); [|exact G0].
    subst rt0 l r. destruct rt as [ic sc ps hi lp fh [e0 e1] [f0 f1] ca pp ext].
    split; reflexivity.
Qed.

Lemma updateEyeInfo_keeps_eye (rt : OpenXrRuntime) (i : nat) :
  Fov (sget i (m_cachedEyeInfo (updateEyeInfo rt))) = Fov (sget i (m_cachedEyeInfo rt)) /\
  Position (HmdToEyePose (sget i (m_cachedEyeInfo (updateEyeInfo rt)))) =
    Position (HmdToEyePose (sget i (m_cachedEyeInfo rt))).
Proof.
  destruct (updateEyeInfo_geometry rt) as [Hg _]. rewrite Hg.
  destruct (correctionActive rt); destruct (m_cachedEyeInfo rt) as [e0 e1];
    destruct i as [|[|i]]; split; reflexivity.
Qed.

(** X1.  [updateEyeInfo] writes the orientation of the cached eye poses,
    the cached angles and the canting angle, and nothing else: the
    tangents and the eye positions, the identity, the floor height, the
    session and every flag are as before, in both modes. *)
Theorem updateEyeInfo_writes_geometry_only (rt : OpenXrRuntime) (i : nat) :
  let rt' := updateEyeInfo rt in
  Fov (sget i (m_cachedEyeInfo rt')) = Fov (sget i (m_cachedEyeInfo rt)) /\
  Position (HmdToEyePose (sget i (m_cachedEyeInfo rt'))) =
    Position (HmdToEyePose (sget i (m_cachedEyeInfo rt))) /\
  m_instanceCreated rt' = m_instanceCreated rt /\
  m_systemCreated rt' = m_systemCreated rt /\
  m_pvrSession rt' = m_pvrSession rt /\
  m_cachedHmdInfo rt' = m_cachedHmdInfo rt /\
  m_loggedProductName rt' = m_loggedProductName rt /\
  m_floorHeight rt' = m_floorHeight rt /\
  m_useParallelProjection rt' = m_useParallelProjection rt /\
  has_XR_EXT_hand_tracking rt' = has_XR_EXT_hand_tracking rt.
Proof.
  intros rt'. subst rt'.
  destruct (updateEyeInfo_frame rt) as (Hs & Hi & Hp & Hh & Hf).
  destruct (updateEyeInfo_flags rt) as (Hl & He & Hu).
  destruct (updateEyeInfo_keeps_eye rt i) as [Hfov Hpos].
  rewrite Hs, Hi, Hp, Hh, Hf, Hl, He, Hu, Hfov, Hpos.
  repeat split; reflexivity.
Qed.

(** [updateEyeInfo] reads the cached eye info and the flag only: the
    previous angles and canting angle do not matter. *)
Lemma updateEyeInfo_forgets_derived (a b : OpenXrRuntime) :
  m_instanceCreated a = m_instanceCreated b ->
  m_systemCreated a = m_systemCreated b ->
  m_pvrSession a = m_pvrSession b ->
  m_cachedHmdInfo a = m_cachedHmdInfo b ->
  m_loggedProductName a = m_loggedProductName b ->
  m_floorHeight a = m_floorHeight b ->
  m_cachedEyeInfo a = m_cachedEyeInfo b ->
  m_useParallelProjection a = m_useParallelProjection b ->
  has_XR_EXT_hand_tracking a = has_XR_EXT_hand_tracking b ->
  updateEyeInfo a = updateEyeInfo b.
Proof.
  intros H1 H2 H3 H4 H5 H6 H7 H8 H9.
  assert (Hact : correctionActive a = correctionActive b)
    by (unfold correctionActive; rewrite H7, H8; reflexivity).
  destruct (updateEyeInfo_frame a) as (As & Ai & Ap & Ah & Af).
  destruct (updateEyeInfo_frame b) as (Bs & Bi & Bp & Bh & Bf).
  destruct (updateEyeInfo_flags a) as (Al & Ae & Au).
  destruct (updateEyeInfo_flags b) as (Bl & Be & Bu).
  destruct (updateEyeInfo_geometry a) as [Ag Afv].
  destruct (updateEyeInfo_geometry b) as [Bg Bfv].
  apply runtime_ext; try congruence.
  - rewrite Ag, Bg, Hact, H7. reflexivity.
  - rewrite Afv, Bfv, Hact, H7. reflexivity.
  - rewrite !updateEyeInfo_cantingAngle, H7. reflexivity.
Qed.

(** X2.  In native mode [updateEyeInfo] is idempotent: a second run on
    its own result changes nothing. *)
Theorem updateEyeInfo_native_idempotent (rt : OpenXrRuntime) :
  correctionActive rt = false ->
  updateEyeInfo (updateEyeInfo rt) = updateEyeInfo rt.
Proof.
  intros Hoff.
  destruct (updateEyeInfo_frame rt) as (Hs & Hi & Hp & Hh & Hf).
  destruct (updateEyeInfo_flags rt) as (Hl & He & Hu).
  destruct (updateEyeInfo_geometry rt) as [Hg _]. rewrite Hoff in Hg.
  apply updateEyeInfo_forgets_derived; assumption.
Qed.


End UpdateEyeInfoFacts.

(* ===================================================================== *)
(** ** More on [xrGetSystem] *)
(* ===================================================================== *)

Section GetSystemFacts.
Context {FO : FloatOps} {PH : PvrHeaders}.

Lemma pvrResult_eqb_eq (a b : pvrResult) : pvrResult_eqb a b = true <-> a = b.
Proof.
  destruct a, b; cbn; try (split; [discriminate | discriminate]);
    try (split; reflexivity).
  rewrite Z.eqb_eq. split; [intros ->; reflexivity | intros [= ->]; reflexivity].
Qed.

Lemma set_m_pvrSession_same (rt : OpenXrRuntime) :
  set_m_pvrSession (m_pvrSession rt) rt = rt.
Proof. destruct rt; reflexivity. Qed.

(** The statements before the identity query, test by test. *)
Lemma xrGetSystem_gate_run (svc : PvrService) (instance : XrInstance)
    (getInfo : XrSystemGetInfo) (rt : OpenXrRuntime) :
  let rt1 := set_m_pvrSession (sessionAfter svc rt) rt in
  let rc := fst (pvr_createSession svc) in
  let rs := fst (pvr_getHmdStatus svc) in
  let st := snd (pvr_getHmdStatus svc) in
  xrGetSystem_gate svc instance getInfo rt =
  if negb (XrStructureType_eqb (gi_type getInfo) XR_TYPE_SYSTEM_GET_INFO)
  then (inr (Return XR_ERROR_VALIDATION_FAILURE), rt)
  else if negb (m_instanceCreated rt) || negb (N.eqb instance 1)
  then (inr (Return XR_ERROR_HANDLE_INVALID), rt)
  else if negb (is_hmd (gi_formFactor getInfo))
  then (inr (Return XR_ERROR_FORM_FACTOR_UNSUPPORTED), rt)
  else if Z.eqb (m_pvrSession rt) 0 && pvrResult_eqb rc pvr_rpc_failed
  then (inr (Return XR_ERROR_FORM_FACTOR_UNAVAILABLE), rt1)
  else if Z.eqb (m_pvrSession rt) 0 && negb (pvrResult_eqb rc pvr_success)
  then (inr (Throw rc), rt1)
  else if negb (pvrResult_eqb rs pvr_success)
  then (inr (Throw rs), rt1)
  else if negb (truthy (ServiceReady st) && truthy (HmdPresent st))
  then (inr (Return XR_ERROR_FORM_FACTOR_UNAVAILABLE), rt1)
  else (inl tt, rt1).
Proof.
  intros rt1 rc rs st. subst rt1 rc rs st.
  unfold xrGetSystem_gate, createPvrSession, checkHmdPresence, sessionAfter,
    bind, get, modify, return_if, leave, ret.
  destruct (XrStructureType_eqb _ _); cbn; [|reflexivity].
  destruct (negb (m_instanceCreated rt) || negb (N.eqb instance 1)); cbn; [reflexivity|].
  destruct (is_hmd _); cbn; [|reflexivity].
  destruct (pvr_getHmdStatus svc) as [rs status].
  destruct (pvr_createSession svc) as [rc h]. cbn.
  destruct (Z.eqb (m_pvrSession rt) 0) eqn:Hz; cbn.
  - destruct rc; cbn; try reflexivity.
    destruct rs; cbn; try reflexivity.
    destruct (negb _); reflexivity.
  - rewrite set_m_pvrSession_same.
    destruct rs; cbn; try reflexivity.
    destruct (negb _); reflexivity.
Qed.

(** The refresh, query by query. *)
Lemma xrGetSystem_refresh_run (svc : PvrService) (rt : OpenXrRuntime) :
  let ri := fst (pvr_getHmdInfo svc) in
  let rl := fst (pvr_getEyeRenderInfo_Left svc) in
  let rr := fst (pvr_getEyeRenderInfo_Right svc) in
  let ro := pvr_setTrackingOriginType svc in
  let rt1 := set_m_cachedHmdInfo (snd (pvr_getHmdInfo svc)) rt in
  let rt2 := set_m_loggedProductName true rt1 in
  let rt3 :=
    set_m_cachedEyeInfo
      (sset 0 (snd (pvr_getEyeRenderInfo_Left svc)) (m_cachedEyeInfo rt))
      (set_m_floorHeight (pvr_getFloatConfig_eye_height svc) rt2) in
  let rt4 :=
    set_m_cachedEyeInfo
      (mkStereo (snd (pvr_getEyeRenderInfo_Left svc))
                (snd (pvr_getEyeRenderInfo_Right svc))) rt3 in
  xrGetSystem_refresh svc rt =
  if negb (pvrResult_eqb ri pvr_success) then (inr (Throw ri), rt1)
  else if negb (pvrResult_eqb rl pvr_success) then (inr (Throw rl), rt3)
  else if negb (pvrResult_eqb rr pvr_success) then (inr (Throw rr), rt4)
  else if negb (pvrResult_eqb ro pvr_success) then (inr (Throw ro), updateEyeInfo rt4)
  else (inl the_system, set_m_systemCreated true (updateEyeInfo rt4)).
Proof.
  cbv zeta.
  unfold xrGetSystem_refresh, queryHmdProperties, cacheCommonInformation,
    bind, get, modify, ret.
  destruct (pvr_getHmdInfo svc) as [ri info].
  destruct (pvr_getEyeRenderInfo_Left svc) as [rl el].
  destruct (pvr_getEyeRenderInfo_Right svc) as [rr er].
  cbn -[updateEyeInfo].
  destruct rt as [ic sc ps hi lp fh [e0 e1] fov ca pp ext].
  destruct ri; cbn -[updateEyeInfo]; try reflexivity.
  destruct lp; cbn -[updateEyeInfo].
  all: destruct rl; cbn -[updateEyeInfo]; try reflexivity.
  all: destruct rr; cbn -[updateEyeInfo]; try reflexivity.
  all: destruct (pvr_setTrackingOriginType svc); cbn -[updateEyeInfo]; reflexivity.
Qed.

(** The whole call, test by test: where it leaves, and with what
    written. *)
Lemma xrGetSystem_run (svc : PvrService) (instance : XrInstance)
    (getInfo : XrSystemGetInfo) (rt : OpenXrRuntime) :
  let rc := fst (pvr_createSession svc) in
  let rs := fst (pvr_getHmdStatus svc) in
  let st := snd (pvr_getHmdStatus svc) in
  let ri := fst (pvr_getHmdInfo svc) in
  let rl := fst (pvr_getEyeRenderInfo_Left svc) in
  let rr := fst (pvr_getEyeRenderInfo_Right svc) in
  let ro := pvr_setTrackingOriginType svc in
  let rt1 := set_m_pvrSession (sessionAfter svc rt) rt in
  let rt2 := set_m_cachedHmdInfo (snd (pvr_getHmdInfo svc)) rt1 in
  let rt3 :=
    set_m_cachedEyeInfo
      (sset 0 (snd (pvr_getEyeRenderInfo_Left svc)) (m_cachedEyeInfo rt))
      (set_m_floorHeight (pvr_getFloatConfig_eye_height svc)
         (set_m_loggedProductName true rt2)) in
  let rt4 :=
    set_m_cachedEyeInfo
      (mkStereo (snd (pvr_getEyeRenderInfo_Left svc))
                (snd (pvr_getEyeRenderInfo_Right svc))) rt3 in
  xrGetSystem svc instance getInfo rt =
  if negb (XrStructureType_eqb (gi_type getInfo) XR_TYPE_SYSTEM_GET_INFO)
  then (Return XR_ERROR_VALIDATION_FAILURE, None, rt)
  else if negb (m_instanceCreated rt) || negb (N.eqb instance 1)
  then (Return XR_ERROR_HANDLE_INVALID, None, rt)
  else if negb (is_hmd (gi_formFactor getInfo))
  then (Return XR_ERROR_FORM_FACTOR_UNSUPPORTED, None, rt)
  else if Z.eqb (m_pvrSession rt) 0 && pvrResult_eqb rc pvr_rpc_failed
  then (Return XR_ERROR_FORM_FACTOR_UNAVAILABLE, None, rt1)
  else if Z.eqb (m_pvrSession rt) 0 && negb (pvrResult_eqb rc pvr_success)
  then (Throw rc, None, rt1)
  else if negb (pvrResult_eqb rs pvr_success)
  then (Throw rs, None, rt1)
  else if negb (truthy (ServiceReady st) && truthy (HmdPresent st))
  then (Return XR_ERROR_FORM_FACTOR_UNAVAILABLE, None, rt1)
  else if negb (pvrResult_eqb ri pvr_success) then (Throw ri, None, rt2)
  else if negb (pvrResult_eqb rl pvr_success) then (Throw rl, None, rt3)
  else if negb (pvrResult_eqb rr pvr_success) then (Throw rr, None, rt4)
  else if negb (pvrResult_eqb ro pvr_success) then (Throw ro, None, updateEyeInfo rt4)
  else (Return XR_SUCCESS, Some the_system, acquired svc rt).
Proof.
  cbv zeta.
  unfold xrGetSystem, xrGetSystem_body, bind.
  pose proof (xrGetSystem_gate_run svc instance getInfo rt) as Hg. cbv zeta in Hg.
  rewrite Hg. clear Hg.
  destruct (negb (XrStructureType_eqb _ _)); [reflexivity|].
  destruct (negb (m_instanceCreated rt) || negb (N.eqb instance 1)); [reflexivity|].
  destruct (negb (is_hmd _)); [reflexivity|].
  destruct (Z.eqb (m_pvrSession rt) 0 && pvrResult_eqb _ pvr_rpc_failed); [reflexivity|].
  destruct (Z.eqb (m_pvrSession rt) 0 && negb _); [reflexivity|].
  destruct (negb (pvrResult_eqb (fst (pvr_getHmdStatus svc)) _)); [reflexivity|].
  destruct (negb (truthy _ && truthy _)); [reflexivity|].
  pose proof (xrGetSystem_refresh_run svc
                (set_m_pvrSession (sessionAfter svc rt) rt)) as Hr.
  cbv zeta in Hr. rewrite Hr. clear Hr.
  destruct (negb (pvrResult_eqb (fst (pvr_getHmdInfo svc)) _)); [reflexivity|].
  destruct (negb (pvrResult_eqb (fst (pvr_getEyeRenderInfo_Left svc)) _)); [reflexivity|].
  destruct (negb (pvrResult_eqb (fst (pvr_getEyeRenderInfo_Right svc)) _)); [reflexivity|].
  destruct (negb (pvrResult_eqb (pvr_setTrackingOriginType svc) _)); [reflexivity|].
  unfold acquired. do 2 f_equal.
Qed.

Lemma succeeded_run (svc : PvrService) (instance : XrInstance)
    (getInfo : XrSystemGetInfo) (rt : OpenXrRuntime) :
  succeeded (fst (fst (xrGetSystem svc instance getInfo rt))) =
  requestAccepted rt instance getInfo && deviceAnswers svc rt.
Proof.
  pose proof (xrGetSystem_run svc instance getInfo rt) as Hrun. cbv zeta in Hrun.
  rewrite Hrun. clear Hrun. unfold requestAccepted, deviceAnswers.
  destruct (XrStructureType_eqb _ _); cbn [negb andb]; [|reflexivity].
  destruct (m_instanceCreated rt); cbn [negb andb orb]; [|reflexivity].
  destruct (N.eqb instance 1); cbn [negb andb orb]; [|reflexivity].
  destruct (is_hmd _); cbn [negb andb orb]; [|reflexivity].
  destruct (Z.eqb (m_pvrSession rt) 0);
    destruct (fst (pvr_createSession svc)); cbn [negb andb orb pvrResult_eqb];
    try reflexivity.
  all: destruct (fst (pvr_getHmdStatus svc)); cbn [negb andb orb pvrResult_eqb];
    try reflexivity.
  all: destruct (truthy (ServiceReady _)); cbn [negb andb orb]; try reflexivity.
  all: destruct (truthy (HmdPresent _)); cbn [negb andb orb]; try reflexivity.
  all: destruct (fst (pvr_getHmdInfo svc)); cbn [negb andb orb pvrResult_eqb];
    try reflexivity.
  all: destruct (fst (pvr_getEyeRenderInfo_Left svc));
    cbn [negb andb orb pvrResult_eqb]; try reflexivity.
  all: destruct (fst (pvr_getEyeRenderInfo_Right svc));
    cbn [negb andb orb pvrResult_eqb]; try reflexivity.
  all: destruct (pvr_setTrackingOriginType svc);
    cbn [negb andb orb pvrResult_eqb]; reflexivity.
Qed.

(** X4.  [xrGetSystem] succeeds exactly when its three request tests pass
    (type tag, instance handle, head-mounted form factor) and every
    checked call to the device service answers [pvr_success] with the
    service ready and the headset present; the session is only created
    when the runtime holds none. *)
Theorem xrGetSystem_succeeds_iff (svc : PvrService) (instance : XrInstance)
    (getInfo : XrSystemGetInfo) (rt : OpenXrRuntime) :
  fst (fst (xrGetSystem svc instance getInfo rt)) = Return XR_SUCCESS <->
  requestAccepted rt instance getInfo = true /\ deviceAnswers svc rt = true.
Proof.
  rewrite <- andb_true_iff, <- succeeded_run.
  destruct (fst (fst (xrGetSystem svc instance getInfo rt))) as [[]|e]; cbn;
    split; congruence.
Qed.

Lemma xrGetSystem_success_run (svc : PvrService) (instance : XrInstance)
    (getInfo : XrSystemGetInfo) (rt : OpenXrRuntime) :
  succeeded (fst (fst (xrGetSystem svc instance getInfo rt))) = true ->
  xrGetSystem svc instance getInfo rt =
  (Return XR_SUCCESS, Some the_system, acquired svc rt).
Proof.
  pose proof (xrGetSystem_run svc instance getInfo rt) as Hrun. cbv zeta in Hrun.
  rewrite Hrun. clear Hrun. intros Hs.
  repeat match goal with
         | |- (if ?c then _ else _) = _ =>
             destruct c; [cbn [fst snd succeeded] in Hs; discriminate Hs|]
         end.
  reflexivity.
Qed.

Lemma set_m_systemCreated_others (v : bool) (x : OpenXrRuntime) :
  m_loggedProductName (set_m_systemCreated v x) = m_loggedProductName x /\
  m_pvrSession (set_m_systemCreated v x) = m_pvrSession x /\
  m_cachedHmdInfo (set_m_systemCreated v x) = m_cachedHmdInfo x /\
  m_floorHeight (set_m_systemCreated v x) = m_floorHeight x /\
  m_cantingAngle (set_m_systemCreated v x) = m_cantingAngle x /\
  m_cachedEyeInfo (set_m_systemCreated v x) = m_cachedEyeInfo x /\
  m_cachedEyeFov (set_m_systemCreated v x) = m_cachedEyeFov x /\
  m_instanceCreated (set_m_systemCreated v x) = m_instanceCreated x /\
  m_useParallelProjection (set_m_systemCreated v x) = m_useParallelProjection x /\
  has_XR_EXT_hand_tracking (set_m_systemCreated v x) = has_XR_EXT_hand_tracking x.
Proof. repeat split; reflexivity. Qed.

(** X5.  A successful [xrGetSystem] stores the system id 1, sets
    [m_systemCreated], and leaves in the cache exactly what the device
    service answered: its identity, its floor height, the tangents of its
    two eyes, and the canting angle of its two eye orientations; the
    session handle is the one held before, or the one just created. *)
Theorem xrGetSystem_success_state (svc : PvrService) (instance : XrInstance)
    (getInfo : XrSystemGetInfo) (rt : OpenXrRuntime) :
  let out := xrGetSystem svc instance getInfo rt in
  let l := snd (pvr_getEyeRenderInfo_Left svc) in
  let r := snd (pvr_getEyeRenderInfo_Right svc) in
  fst (fst out) = Return XR_SUCCESS ->
  snd (fst out) = Some the_system /\
  snd out = acquired svc rt /\
  m_systemCreated (snd out) = true /\
  m_loggedProductName (snd out) = true /\
  m_pvrSession (snd out) = sessionAfter svc rt /\
  m_cachedHmdInfo (snd out) = snd (pvr_getHmdInfo svc) /\
  m_floorHeight (snd out) = pvr_getFloatConfig_eye_height svc /\
  m_cantingAngle (snd out) = cantingAngleOf (mkStereo l r) /\
  Fov (sget 0 (m_cachedEyeInfo (snd out))) = Fov l /\
  Fov (sget 1 (m_cachedEyeInfo (snd out))) = Fov r.
Proof.
  intros out l r Hok. subst out.
  rewrite xrGetSystem_success_run by (rewrite Hok; reflexivity).
  cbn [fst snd]. unfold acquired.
  set (base := mkRuntime _ _ _ _ _ _ _ _ _ _ _).
  destruct (updateEyeInfo_frame base) as (_ & _ & Hp & Hh & Hf).
  destruct (updateEyeInfo_flags base) as (Hl & _).
  destruct (updateEyeInfo_keeps_eye base 0) as (F0 & _).
  destruct (updateEyeInfo_keeps_eye base 1) as (F1 & _).
  split; [reflexivity|]. split; [reflexivity|]. split; [reflexivity|].
  destruct (set_m_systemCreated_others true (updateEyeInfo base))
    as (-> & -> & -> & -> & -> & -> & _).
  rewrite Hp, Hh, Hl, Hf, F0, F1, updateEyeInfo_cantingAngle.
  repeat split; reflexivity.
Qed.

(** X6.  A request that fails one of the three request tests is
    answered before any call to the device service: the runtime object is
    not written, nothing is stored through [systemId], the answer does not
    depend on the service, and the code follows the order of the tests
    (type tag, then instance handle, then form factor). *)
Theorem xrGetSystem_rejects_before_device (svc svc' : PvrService)
    (instance : XrInstance) (getInfo : XrSystemGetInfo) (rt : OpenXrRuntime) :
  requestAccepted rt instance getInfo = false ->
  xrGetSystem svc instance getInfo rt =
    (Return
       (if negb (XrStructureType_eqb (gi_type getInfo) XR_TYPE_SYSTEM_GET_INFO)
        then XR_ERROR_VALIDATION_FAILURE
        else if negb (m_instanceCreated rt && N.eqb instance 1)
        then XR_ERROR_HANDLE_INVALID
        else XR_ERROR_FORM_FACTOR_UNSUPPORTED),
     None, rt) /\
  xrGetSystem svc' instance getInfo rt = xrGetSystem svc instance getInfo rt.
Proof.
  unfold requestAccepted. intros Hrej.
  pose proof (xrGetSystem_run svc instance getInfo rt) as Hrun. cbv zeta in Hrun.
  pose proof (xrGetSystem_run svc' instance getInfo rt) as Hrun'. cbv zeta in Hrun'.
  rewrite Hrun, Hrun'. clear Hrun Hrun'.
  destruct (XrStructureType_eqb _ _); cbn [negb andb] in *; [|split; reflexivity].
  destruct (m_instanceCreated rt); cbn [negb andb orb] in *; [|split; reflexivity].
  destruct (N.eqb instance 1); cbn [negb andb orb] in *; [|split; reflexivity].
  rewrite Hrej. cbn [negb]. split; reflexivity.
Qed.

(** X7.  The outcomes of [xrGetSystem].  The system id is stored exactly
    when the call returns [XR_SUCCESS]; otherwise the call returns one of
    four error codes, or gives up on the result of one of the six checked
    service calls, and that result is never [pvr_success]. *)
Theorem xrGetSystem_outcomes (svc : PvrService) (instance : XrInstance)
    (getInfo : XrSystemGetInfo) (rt : OpenXrRuntime) :
  let out := xrGetSystem svc instance getInfo rt in
  (fst (fst out) = Return XR_SUCCESS /\ snd (fst out) = Some the_system) \/
  (snd (fst out) = None /\
   (In (fst (fst out))
       [Return XR_ERROR_VALIDATION_FAILURE; Return XR_ERROR_HANDLE_INVALID;
        Return XR_ERROR_FORM_FACTOR_UNSUPPORTED;
        Return XR_ERROR_FORM_FACTOR_UNAVAILABLE] \/
    exists e, fst (fst out) = Throw e /\ e <> pvr_success /\
      In e [fst (pvr_createSession svc); fst (pvr_getHmdStatus svc);
            fst (pvr_getHmdInfo svc); fst (pvr_getEyeRenderInfo_Left svc);
            fst (pvr_getEyeRenderInfo_Right svc); pvr_setTrackingOriginType svc])).
Proof.
  intros out. subst out.
  pose proof (xrGetSystem_run svc instance getInfo rt) as Hrun. cbv zeta in Hrun.
  rewrite Hrun. clear Hrun.
  assert (Hne : forall r, negb (pvrResult_eqb r pvr_success) = true -> r <> pvr_success).
  { intros r Hr ->. discriminate Hr. }
  repeat match goal with
         | |- context [if ?c then _ else _] =>
             lazymatch c with
             | context [if _ then _ else _] => fail
             | _ => destruct c eqn:?
             end
         end; cbn [fst snd].
  all: try (left; split; reflexivity).
  all: right; split; [reflexivity|].
  all: try (left; cbn; tauto).
  all: right; eexists; split; [reflexivity|]; split;
    [ apply Hne; try assumption;
      match goal with
      | H : _ && ?b = true |- ?b = true => apply andb_true_iff in H; apply H
      end
    | cbn; tauto ].
Qed.

Lemma kept_updateEyeInfo (rt x : OpenXrRuntime) :
  keptByAcquisition rt x -> keptByAcquisition rt (updateEyeInfo x).
Proof.
  unfold keptByAcquisition.
  destruct (updateEyeInfo_frame x) as (-> & -> & -> & _).
  destruct (updateEyeInfo_flags x) as (-> & -> & ->).
  tauto.
Qed.

Lemma kept_set_created (rt x : OpenXrRuntime) :
  keptByAcquisition rt x -> keptByAcquisition rt (set_m_systemCreated true x).
Proof.
  unfold keptByAcquisition.
  destruct (set_m_systemCreated_others true x)
    as (-> & -> & _ & _ & _ & _ & _ & -> & -> & ->).
  cbn [m_systemCreated set_m_systemCreated]. tauto.
Qed.

Lemma kept_session (svc : PvrService) (rt : OpenXrRuntime) :
  keptByAcquisition rt (set_m_pvrSession (sessionAfter svc rt) rt).
Proof.
  unfold keptByAcquisition, sessionAfter. cbn.
  repeat split; try tauto.
  intros Hne. apply Z.eqb_neq in Hne. rewrite Hne. reflexivity.
Qed.

(** X8.  Whatever its outcome, [xrGetSystem] never writes
    [m_instanceCreated], [m_useParallelProjection] or the hand-tracking
    flag, never clears [m_systemCreated] or [m_loggedProductName], and
    never replaces a session handle that is not null. *)
Theorem xrGetSystem_keeps (svc : PvrService) (instance : XrInstance)
    (getInfo : XrSystemGetInfo) (rt : OpenXrRuntime) :
  let rt' := snd (xrGetSystem svc instance getInfo rt) in
  m_instanceCreated rt' = m_instanceCreated rt /\
  m_useParallelProjection rt' = m_useParallelProjection rt /\
  has_XR_EXT_hand_tracking rt' = has_XR_EXT_hand_tracking rt /\
  (m_systemCreated rt = true -> m_systemCreated rt' = true) /\
  (m_loggedProductName rt = true -> m_loggedProductName rt' = true) /\
  (m_pvrSession rt <> 0 -> m_pvrSession rt' = m_pvrSession rt).
Proof.
  change (keptByAcquisition rt (snd (xrGetSystem svc instance getInfo rt))).
  pose proof (xrGetSystem_run svc instance getInfo rt) as Hrun. cbv zeta in Hrun.
  rewrite Hrun. clear Hrun.
  assert (K0 : keptByAcquisition rt rt) by (unfold keptByAcquisition; tauto).
  pose proof (kept_session svc rt) as K1.
  set (rt1 := set_m_pvrSession (sessionAfter svc rt) rt) in *.
  assert (Kset : forall x f,
             keptByAcquisition rt x ->
             m_instanceCreated (f x) = m_instanceCreated x ->
             m_useParallelProjection (f x) = m_useParallelProjection x ->
             has_XR_EXT_hand_tracking (f x) = has_XR_EXT_hand_tracking x ->
             m_systemCreated (f x) = m_systemCreated x ->
             (m_loggedProductName x = true -> m_loggedProductName (f x) = true) ->
             m_pvrSession (f x) = m_pvrSession x ->
             keptByAcquisition rt (f x)).
  { unfold keptByAcquisition. intros x f (A & B & C & D & E & F) -> -> -> -> Hl ->.
    repeat split; auto. }
  assert (K2 : keptByAcquisition rt
                 (set_m_cachedHmdInfo (snd (pvr_getHmdInfo svc)) rt1))
    by (apply (Kset rt1 (set_m_cachedHmdInfo _)); auto).
  set (rt2 := set_m_cachedHmdInfo (snd (pvr_getHmdInfo svc)) rt1) in *.
  assert (K3 : keptByAcquisition rt
                 (set_m_cachedEyeInfo
                    (sset 0 (snd (pvr_getEyeRenderInfo_Left svc)) (m_cachedEyeInfo rt))
                    (set_m_floorHeight (pvr_getFloatConfig_eye_height svc)
                       (set_m_loggedProductName true rt2))))
    by (apply (Kset rt2 (fun x => set_m_cachedEyeInfo _ (set_m_floorHeight _
                                    (set_m_loggedProductName true x)))); auto).
  set (rt3 := set_m_cachedEyeInfo _ (set_m_floorHeight _ _)) in *.
  assert (K4 : keptByAcquisition rt
                 (set_m_cachedEyeInfo
                    (mkStereo (snd (pvr_getEyeRenderInfo_Left svc))
                              (snd (pvr_getEyeRenderInfo_Right svc))) rt3))
    by (apply (Kset rt3 (set_m_cachedEyeInfo _)); auto).
  set (rt4 := set_m_cachedEyeInfo (mkStereo _ _) rt3) in *.
  pose proof (kept_updateEyeInfo rt rt4 K4) as K5.
  assert (K6 : keptByAcquisition rt (acquired svc rt)).
  { pose proof (kept_set_created rt _ K5) as K.
    replace (acquired svc rt) with (set_m_systemCreated true (updateEyeInfo rt4));
      [exact K|].
    unfold acquired. f_equal. }
  repeat match goal with
         | |- context [if ?c then _ else _] =>
             lazymatch c with
             | context [if _ then _ else _] => fail
             | _ => destruct c
             end
         end; cbn [snd]; assumption.
Qed.

(** The members of the runtime after a call that ran to its end. *)
Lemma acquired_members (svc : PvrService) (rt : OpenXrRuntime) :
  m_instanceCreated (acquired svc rt) = m_instanceCreated rt /\
  m_pvrSession (acquired svc rt) = sessionAfter svc rt /\
  m_useParallelProjection (acquired svc rt) = m_useParallelProjection rt /\
  has_XR_EXT_hand_tracking (acquired svc rt) = has_XR_EXT_hand_tracking rt.
Proof.
  unfold acquired.
  set (base := mkRuntime _ _ _ _ _ _ _ _ _ _ _).
  destruct (set_m_systemCreated_others true (updateEyeInfo base))
    as (_ & -> & _ & _ & _ & _ & _ & -> & -> & ->).
  destruct (updateEyeInfo_frame base) as (_ & -> & -> & _).
  destruct (updateEyeInfo_flags base) as (_ & -> & ->).
  repeat split; reflexivity.
Qed.

Lemma sessionAfter_stable (svc : PvrService) (rt : OpenXrRuntime) :
  (if Z.eqb (sessionAfter svc rt) 0 then snd (pvr_createSession svc)
   else sessionAfter svc rt) = sessionAfter svc rt.
Proof.
  unfold sessionAfter.
  destruct (Z.eqb (m_pvrSession rt) 0) eqn:Hz.
  - destruct (Z.eqb (snd (pvr_createSession svc)) 0); reflexivity.
  - rewrite Hz. reflexivity.
Qed.

Lemma acquired_twice (svc : PvrService) (rt : OpenXrRuntime) :
  acquired svc (acquired svc rt) = acquired svc rt.
Proof.
  destruct (acquired_members svc rt) as (Hi & Hp & Hu & He).
  unfold acquired at 1. unfold sessionAfter at 1.
  rewrite Hi, Hp, Hu, He, sessionAfter_stable.
  unfold acquired.
  set (a := mkRuntime _ _ _ _ _ _ _ _ _ _ _).
  set (b := mkRuntime _ _ _ _ _ _ _ _ _ _ _).
  assert (Hact : correctionActive a = correctionActive b) by reflexivity.
  destruct (updateEyeInfo_frame a) as (As & Ai & Ap & Ah & Af).
  destruct (updateEyeInfo_frame b) as (Bs & Bi & Bp & Bh & Bf).
  destruct (updateEyeInfo_flags a) as (Al & Ae & Au).
  destruct (updateEyeInfo_flags b) as (Bl & Be & Bu).
  destruct (updateEyeInfo_geometry a) as [Ag Afv].
  destruct (updateEyeInfo_geometry b) as [Bg Bfv].
  pose proof (updateEyeInfo_cantingAngle a) as Ac.
  pose proof (updateEyeInfo_cantingAngle b) as Bc.
  destruct (set_m_systemCreated_others true (updateEyeInfo a))
    as (A1 & A2 & A3 & A4 & A5 & A6 & A7 & A8 & A9 & A10).
  destruct (set_m_systemCreated_others true (updateEyeInfo b))
    as (B1 & B2 & B3 & B4 & B5 & B6 & B7 & B8 & B9 & B10).
  apply runtime_ext.
  - rewrite A8, B8, Ai, Bi. reflexivity.
  - reflexivity.
  - rewrite A2, B2, Ap, Bp. reflexivity.
  - rewrite A3, B3, Ah, Bh. reflexivity.
  - rewrite A1, B1, Al, Bl. reflexivity.
  - rewrite A4, B4, Af, Bf. reflexivity.
  - rewrite A6, B6, Ag, Bg, Hact. reflexivity.
  - rewrite A7, B7, Afv, Bfv, Hact. reflexivity.
  - rewrite A5, B5, Ac, Bc. reflexivity.
  - rewrite A9, B9, Au, Bu. reflexivity.
  - rewrite A10, B10, Ae, Be. reflexivity.
Qed.

(** X9.  Re-acquisition is idempotent: after a successful [xrGetSystem],
    a second call with the same request, against a device service that
    gives the same answers, succeeds again with the same system id and
    leaves the runtime object exactly as the first call left it. *)
Theorem xrGetSystem_idempotent (svc : PvrService) (instance : XrInstance)
    (getInfo : XrSystemGetInfo) (rt : OpenXrRuntime) :
  let out := xrGetSystem svc instance getInfo rt in
  fst (fst out) = Return XR_SUCCESS ->
  xrGetSystem svc instance getInfo (snd out) = out.
Proof.
  intros out Hok. subst out.
  assert (Hs : succeeded (fst (fst (xrGetSystem svc instance getInfo rt))) = true)
    by (rewrite Hok; reflexivity).
  pose proof Hs as Hcond. rewrite succeeded_run in Hcond.
  apply andb_true_iff in Hcond as [Hreq Hdev].
  rewrite (xrGetSystem_success_run svc instance getInfo rt Hs).
  cbn [snd].
  destruct (acquired_members svc rt) as (Hi & Hp & _ & _).
  rewrite xrGetSystem_success_run.
  - rewrite acquired_twice. reflexivity.
  - rewrite succeeded_run. apply andb_true_iff. split.
    + unfold requestAccepted in *. rewrite Hi. exact Hreq.
    + unfold deviceAnswers in *. rewrite Hp. unfold sessionAfter.
      destruct (Z.eqb (m_pvrSession rt) 0) eqn:Hz.
      * destruct (pvrResult_eqb (fst (pvr_createSession svc)) pvr_success);
          [|discriminate Hdev].
        rewrite orb_true_r in *. exact Hdev.
      * rewrite Hz. exact Hdev.
Qed.

End GetSystemFacts.

(* ===================================================================== *)
(** ** More on [xrGetSystemProperties] *)
(* ===================================================================== *)

Section PropertiesFacts.
Context {FO : FloatOps} {PH : PvrHeaders}.

(** X10.  [xrGetSystemProperties] returns [XR_SUCCESS] exactly when its
    three tests pass.  Otherwise it writes nothing to the caller's
    structure, chain included, and the code follows the order of the
    tests: type tag, then instance handle, then system (created, and the
    id 1). *)
Theorem xrGetSystemProperties_tests (rt : OpenXrRuntime) (instance : XrInstance)
    (systemId : XrSystemId) (properties : XrSystemProperties) :
  let out := xrGetSystemProperties rt instance systemId properties in
  (fst out = XR_SUCCESS <-> propertiesAccepted rt instance systemId properties = true) /\
  (propertiesAccepted rt instance systemId properties = false ->
   snd out = properties /\
   fst out =
     if negb (XrStructureType_eqb (sp_type properties) XR_TYPE_SYSTEM_PROPERTIES)
     then XR_ERROR_VALIDATION_FAILURE
     else if negb (m_instanceCreated rt && N.eqb instance 1)
     then XR_ERROR_HANDLE_INVALID
     else XR_ERROR_SYSTEM_INVALID).
Proof.
  unfold xrGetSystemProperties, propertiesAccepted.
  destruct (XrStructureType_eqb _ _); cbn;
    [|split; [split; discriminate | intros _; split; reflexivity]].
  destruct (m_instanceCreated rt); cbn;
    [|split; [split; discriminate | intros _; split; reflexivity]].
  destruct (N.eqb instance 1); cbn;
    [|split; [split; discriminate | intros _; split; reflexivity]].
  destruct (m_systemCreated rt); cbn;
    [|split; [split; discriminate | intros _; split; reflexivity]].
  destruct (N.eqb systemId 1); cbn;
    [|split; [split; discriminate | intros _; split; reflexivity]].
  split; [split; reflexivity | discriminate].
Qed.

Lemma alter_keeps_tags (i : nat) (chain : list ChainBlock) :
  map blk_type (alter (set_supportsHandTracking XR_TRUE) i chain) = map blk_type chain.
Proof.
  revert i. induction chain as [|b rest IH]; intros [|i]; cbn; try reflexivity.
  f_equal. apply IH.
Qed.

Lemma fillHandTracking_keeps_tags (p : option nat) (chain : list ChainBlock) :
  map blk_type (fillHandTracking p chain) = map blk_type chain.
Proof. destruct p; cbn; [apply alter_keeps_tags | reflexivity]. Qed.

(** X11.  Whatever the outcome and the state of the extension,
    [xrGetSystemProperties] keeps the shape of the caller's chain: the
    same number of structures with the same type tags in the same order,
    and at most one of them written. *)
Theorem xrGetSystemProperties_keeps_chain_shape (rt : OpenXrRuntime)
    (instance : XrInstance) (systemId : XrSystemId) (properties : XrSystemProperties) :
  let out := snd (xrGetSystemProperties rt instance systemId properties) in
  sp_type out = sp_type properties /\
  map blk_type (sp_next out) = map blk_type (sp_next properties) /\
  length (sp_next out) = length (sp_next properties) /\
  exists k : nat, forall j : nat, j <> k ->
    sp_next out !! j = sp_next properties !! j.
Proof.
  unfold xrGetSystemProperties.
  repeat match goal with
         | |- context [if ?c then _ else _] => destruct c
         end; cbn [snd sp_type sp_next].
  1-3: (split; [reflexivity|]; split; [reflexivity|]; split; [reflexivity|];
        exists O; reflexivity).
  split; [reflexivity|]. split; [apply fillHandTracking_keeps_tags|].
  split.
  - rewrite <- (length_map blk_type), fillHandTracking_keeps_tags, length_map.
    reflexivity.
  - destruct (handTrackingProperties _ _) as [k|]; cbn.
    + exists k. intros j Hj. apply list_lookup_alter_ne. congruence.
    + exists O. reflexivity.
Qed.

(** The walk stops at the first hand-tracking block. *)
Lemma walkChain_first (pre post : list ChainBlock) (b : ChainBlock) (pos : nat) :
  forallb (fun x => negb (isHandTracking x)) pre = true ->
  isHandTracking b = true ->
  walkChain (pre ++ b :: post) pos = Some (pos + length pre)%nat.
Proof.
  revert pos. induction pre as [|x pre IH]; intros pos Hpre Hb; cbn.
  - unfold isHandTracking in Hb. rewrite Hb. f_equal. lia.
  - cbn in Hpre. apply andb_true_iff in Hpre as [Hx Hpre].
    apply negb_true_iff in Hx. unfold isHandTracking in Hx. rewrite Hx.
    rewrite (IH (S pos) Hpre Hb). f_equal. lia.
Qed.

Lemma walkChain_none (chain : list ChainBlock) (pos : nat) :
  forallb (fun x => negb (isHandTracking x)) chain = true ->
  walkChain chain pos = None.
Proof.
  revert pos. induction chain as [|x rest IH]; intros pos Hall; cbn; [reflexivity|].
  cbn in Hall. apply andb_true_iff in Hall as [Hx Hrest].
  apply negb_true_iff in Hx. unfold isHandTracking in Hx. rewrite Hx.
  apply IH. exact Hrest.
Qed.

Lemma alter_middle (pre post : list ChainBlock) (b : ChainBlock)
    (f : ChainBlock -> ChainBlock) :
  alter f (length pre) (pre ++ b :: post) = pre ++ f b :: post.
Proof.
  induction pre as [|x pre IH]; cbn; [reflexivity|]. f_equal. exact IH.
Qed.

(** X12.  With the hand-tracking extension enabled, an accepted call
    fills the first hand-tracking block of the chain, wherever it stands
    behind blocks of other types, with [supportsHandTracking = XR_TRUE],
    and writes no other block (a second hand-tracking block included);
    a chain without a hand-tracking block, the empty chain included, is
    returned as it was. *)
Theorem xrGetSystemProperties_fills_first_match (rt : OpenXrRuntime)
    (instance : XrInstance) (systemId : XrSystemId) (properties : XrSystemProperties) :
  let out := snd (xrGetSystemProperties rt instance systemId properties) in
  propertiesAccepted rt instance systemId properties = true ->
  has_XR_EXT_hand_tracking rt = true ->
  (forall pre b post,
     sp_next properties = pre ++ b :: post ->
     forallb (fun x => negb (isHandTracking x)) pre = true ->
     isHandTracking b = true ->
     sp_next out = pre ++ mkBlock (blk_type b) XR_TRUE :: post) /\
  (forallb (fun x => negb (isHandTracking x)) (sp_next properties) = true ->
   sp_next out = sp_next properties).
Proof.
  intros out Hacc Hext. subst out.
  unfold propertiesAccepted in Hacc.
  apply andb_true_iff in Hacc as [Hacc Hsys].
  apply andb_true_iff in Hacc as [Hty Hinst].
  unfold xrGetSystemProperties. rewrite Hty.
  replace (negb (m_instanceCreated rt) || negb (N.eqb instance 1)) with false
    by (rewrite <- negb_andb, Hinst; reflexivity).
  replace (negb (m_systemCreated rt) || negb (N.eqb systemId 1)) with false
    by (rewrite <- negb_andb, Hsys; reflexivity).
  cbn [negb snd sp_next]. rewrite Hext. unfold handTrackingProperties.
  split.
  - intros pre b post Hchain Hpre Hb. rewrite Hchain.
    rewrite (walkChain_first pre post b 0 Hpre Hb). cbn [fillHandTracking Nat.add].
    apply alter_middle.
  - intros Hnone. rewrite (walkChain_none _ 0 Hnone). reflexivity.
Qed.

End PropertiesFacts.

(* ===================================================================== *)
(** ** More on the blend-mode enumeration *)
(* ===================================================================== *)

Section EnumerationFacts.
Context {FO : FloatOps} {PH : PvrHeaders}.

(** The copy loop from index [i]: [n] cells of the table over the cells
    [i .. i + n - 1] of the array, the rest of the array untouched. *)
Lemma copyBlendModes_from (table : list XrEnvironmentBlendMode) (n i : nat)
    (out : list XrEnvironmentBlendMode) :
  (i + n <= length table)%nat -> (i + n <= length out)%nat ->
  copyBlendModes table i n out =
  Some (take i out ++ take n (drop i table) ++ drop (i + n) out).
Proof.
  revert i out. induction n as [|n IH]; intros i out Ht Ho.
  - cbn [copyBlendModes]. rewrite Nat.add_0_r, take_0, app_nil_l, take_drop.
    reflexivity.
  - cbn [copyBlendModes].
    destruct (table !! i) as [m|] eqn:Hm;
      [|apply lookup_ge_None in Hm; lia].
    assert (Hlt : Nat.ltb i (length out) = true) by (apply Nat.ltb_lt; lia).
    rewrite Hlt.
    rewrite IH by (rewrite ?length_insert; lia).
    f_equal.
    rewrite (drop_S table m i Hm). cbn [take].
    rewrite (take_S_r (<[i:=m]> out) i m) by (apply list_lookup_insert_eq; lia).
    rewrite take_insert_ge by lia.
    rewrite drop_insert_lt by lia.
    rewrite <- app_assoc. cbn [app].
    replace (S i + n)%nat with (i + S n)%nat by lia.
    reflexivity.
Qed.

Lemma copyBlendModes_short (table : list XrEnvironmentBlendMode) (n i : nat)
    (out : list XrEnvironmentBlendMode) :
  (i + n <= length table)%nat -> (i <= length out < i + n)%nat ->
  copyBlendModes table i n out = None.
Proof.
  revert i out. induction n as [|n IH]; intros i out Ht Ho; [lia|].
  cbn [copyBlendModes].
  destruct (table !! i) as [m|] eqn:Hm; [|reflexivity].
  destruct (Nat.ltb i (length out)) eqn:Hlt; [|reflexivity].
  apply Nat.ltb_lt in Hlt.
  apply IH; rewrite ?length_insert; lia.
Qed.

(** X13.  The copy loop over a table of any size: when the caller's array
    has room for the table, it ends with the table in its first cells and
    every further cell as the caller left it; when the array is shorter
    than the table, the loop stores past its end. *)
Theorem copyBlendModes_writes_prefix (table out : list XrEnvironmentBlendMode) :
  ((length table <= length out)%nat ->
   copyBlendModes table 0 (length table) out =
   Some (table ++ drop (length table) out)) /\
  ((length out < length table)%nat ->
   copyBlendModes table 0 (length table) out = None).
Proof.
  split; intros Hlen.
  - rewrite copyBlendModes_from by (cbn; lia).
    rewrite drop_0, take_0, firstn_all. reflexivity.
  - apply copyBlendModes_short; cbn; lia.
Qed.

(** X14.  The outcomes of [xrEnumerateEnvironmentBlendModes] for every
    input.  It never returns [XR_ERROR_SIZE_INSUFFICIENT].  Invalid
    handles or an unsupported view configuration are refused in that
    order, whatever the capacity, with the count and the array untouched.
    The only call the code leaves undefined is a valid one with a nonzero
    capacity and an array of no cell. *)
Theorem xrEnumerateEnvironmentBlendModes_outcomes (rt : OpenXrRuntime)
    (instance : XrInstance) (systemId : XrSystemId) (t : XrViewConfigurationType)
    (capacity count : N) (modes : option (list XrEnvironmentBlendMode)) :
  let call := xrEnumerateEnvironmentBlendModes rt instance systemId t capacity count modes in
  let refusal :=
    if negb (m_instanceCreated rt && N.eqb instance 1) then Some XR_ERROR_HANDLE_INVALID
    else if negb (m_systemCreated rt && N.eqb systemId 1) then Some XR_ERROR_SYSTEM_INVALID
    else if negb (is_primary_stereo t)
    then Some XR_ERROR_VIEW_CONFIGURATION_TYPE_UNSUPPORTED
    else None in
  (forall code, refusal = Some code ->
     call = Some (mkEnumerateResult code count modes)) /\
  (refusal = None ->
     (call = None <-> capacity <> 0%N /\ modes = Some [])) /\
  (forall r, call = Some r ->
     er_result r <> XR_ERROR_SIZE_INSUFFICIENT /\
     (er_result r = XR_SUCCESS <-> refusal = None) /\
     (er_result r = XR_SUCCESS -> er_countOutput r = 1%N)).
Proof.
  intros call refusal. subst call refusal.
  unfold xrEnumerateEnvironmentBlendModes, enumerateBlendModesFrom.
  rewrite shipped_table_never_insufficient.
  destruct (m_instanceCreated rt); cbn [negb andb orb];
    [|repeat split; try discriminate; intros; simplify_eq; cbn; congruence].
  destruct (N.eqb instance 1); cbn [negb andb orb];
    [|repeat split; try discriminate; intros; simplify_eq; cbn; congruence].
  destruct (m_systemCreated rt); cbn [negb andb orb];
    [|repeat split; try discriminate; intros; simplify_eq; cbn; congruence].
  destruct (N.eqb systemId 1); cbn [negb andb orb];
    [|repeat split; try discriminate; intros; simplify_eq; cbn; congruence].
  destruct (is_primary_stereo t); cbn [negb andb orb];
    [|repeat split; try discriminate; intros; simplify_eq; cbn; congruence].
  destruct (N.eqb_spec capacity 0) as [->|Hne]; cbn [negb].
  - repeat split; try discriminate; intros; simplify_eq; cbn; try tauto; congruence.
  - destruct modes as [[|first rest]|]; cbn.
    + split; [discriminate|]. split; [|discriminate].
      intros _. split; [intros _; split; [exact Hne | reflexivity] | reflexivity].
    + split; [discriminate|]. split.
      * intros _. split; [discriminate | intros [_ Hm]; discriminate Hm].
      * intros r [= <-]. cbn. repeat split; try discriminate; reflexivity.
    + split; [discriminate|]. split.
      * intros _. split; [discriminate | intros [_ Hm]; discriminate Hm].
      * intros r [= <-]. cbn. repeat split; try discriminate; reflexivity.
Qed.

(** X15.  The two-call idiom over a table of any size, as the body of
    the call is written: with valid arguments, a capacity that is at
    least the number of supported modes and an array with room for them,
    the call succeeds, reports the number of modes and hands back the
    table in the first cells of the array, the other cells untouched. *)
Theorem enumerateBlendModesFrom_fills (table : list XrEnvironmentBlendMode)
    (rt : OpenXrRuntime) (instance : XrInstance) (systemId : XrSystemId)
    (t : XrViewConfigurationType) (capacity count : N)
    (out : list XrEnvironmentBlendMode) :
  validEnumerateArgs rt instance systemId t ->
  capacity <> 0%N ->
  (ARRAYSIZE table <= capacity)%N ->
  (length table <= length out)%nat ->
  enumerateBlendModesFrom table rt instance systemId t capacity count (Some out) =
  Some (mkEnumerateResult XR_SUCCESS (ARRAYSIZE table)
          (Some (table ++ drop (length table) out))).
Proof.
  intros Hvalid Hne Hcap Hroom.
  rewrite (enumerate_valid _ _ _ _ _ _ _ _ Hvalid).
  assert (Hlt : N.ltb capacity (ARRAYSIZE table) = false) by (apply N.ltb_ge; exact Hcap).
  apply N.eqb_neq in Hne. rewrite Hne, Hlt. cbn [negb andb].
  unfold ARRAYSIZE at 1. rewrite Nat2N.id.
  rewrite copyBlendModes_from by (cbn; lia).
  rewrite drop_0, take_0, firstn_all. reflexivity.
Qed.

End EnumerationFacts.

(* ===================================================================== *)
(** ** More on [getRuntimeStatus] *)
(* ===================================================================== *)

Section StatusFacts.
Context {FO : FloatOps} {PH : PvrHeaders}.

Lemma check_run (r : pvrResult) :
  check r = if pvrResult_eqb r pvr_success then Some tt else None.
Proof. destruct r; reflexivity. Qed.

(** The call, check by check. *)
Lemma getRuntimeStatus_run (svc : CompanionService) :
  let l := snd (c_getEyeRenderInfo_Left svc) in
  let r := snd (c_getEyeRenderInfo_Right svc) in
  let c := companionCantingAngle l r in
  let pp := selectParallelProjection c (c_steamvr_use_native_fov svc) in
  let size := snd (c_getFovTextureSize svc (fovForResolution l c pp)) in
  getRuntimeStatus svc =
  if companionAnswers svc then
    Some {| valid := true;
            refreshRate := snd (c_getEyeDisplayInfo svc);
            resolutionWidth := to_uint32 (size_w size);
            resolutionHeight := to_uint32 (size_h size);
            fovLevel := to_uint8 (c_fov_level svc);
            fov := companionFov l r c;
            floorHeight := c_eye_height svc;
            useParallelProjection := pp;
            useSmartSmoothing := truthy (c_dbg_asw_enable svc);
            useLighthouseTracking := truthy (c_enable_lighthouse_tracking svc);
            fps := c_client_fps svc |}
  else None.
Proof.
  cbv zeta. unfold getRuntimeStatus, companionAnswers.
  rewrite !check_run.
  destruct (pvrResult_eqb (c_initialise svc) pvr_success); cbn; [|reflexivity].
  destruct (pvrResult_eqb (c_createSession svc) pvr_success); cbn; [|reflexivity].
  destruct (c_getEyeDisplayInfo svc) as [r0 rate]. rewrite check_run. cbn.
  destruct (pvrResult_eqb r0 pvr_success); cbn; [|reflexivity].
  destruct (c_getEyeRenderInfo_Left svc) as [r1 e0]. rewrite check_run. cbn.
  destruct (pvrResult_eqb r1 pvr_success); cbn; [|reflexivity].
  destruct (c_getEyeRenderInfo_Right svc) as [r2 e1]. rewrite check_run. cbn.
  destruct (pvrResult_eqb r2 pvr_success); cbn; [|reflexivity].
  destruct (c_getFovTextureSize svc _) as [r3 size]. rewrite check_run. cbn.
  destruct (pvrResult_eqb r3 pvr_success); reflexivity.
Qed.

(** X16.  [getRuntimeStatus] yields a status exactly when each of its six
    checked calls answers [pvr_success]; a status it yields is marked
    valid, its [fovLevel] is below 256 and its resolution below 2^32
    (the conversions to [uint8_t] and [uint32_t]), and its two tracking
    flags are set exactly when the configuration values are not zero. *)
Theorem getRuntimeStatus_status (svc : CompanionService) :
  (getRuntimeStatus svc <> None <-> companionAnswers svc = true) /\
  (forall status, getRuntimeStatus svc = Some status ->
     valid status = true /\
     0 <= fovLevel status < 256 /\
     0 <= resolutionWidth status < 2 ^ 32 /\
     0 <= resolutionHeight status < 2 ^ 32 /\
     (useSmartSmoothing status = true <-> c_dbg_asw_enable svc <> 0) /\
     (useLighthouseTracking status = true <-> c_enable_lighthouse_tracking svc <> 0) /\
     refreshRate status = snd (c_getEyeDisplayInfo svc) /\
     floorHeight status = c_eye_height svc /\
     fps status = c_client_fps svc).
Proof.
  pose proof (getRuntimeStatus_run svc) as Hrun. cbv zeta in Hrun. rewrite Hrun.
  clear Hrun. destruct (companionAnswers svc).
  - split; [split; [reflexivity | discriminate]|].
    intros status [= <-]. cbn.
    assert (Htruthy : forall x, truthy x = true <-> x <> 0).
    { intros x. unfold truthy. rewrite negb_true_iff. apply Z.eqb_neq. }
    split; [reflexivity|].
    split; [unfold to_uint8; apply Z.mod_pos_bound; lia|].
    split; [unfold to_uint32; apply Z.mod_pos_bound; lia|].
    split; [unfold to_uint32; apply Z.mod_pos_bound; lia|].
    split; [apply Htruthy|]. split; [apply Htruthy|].
    repeat split; reflexivity.
  - split; [split; [congruence | discriminate] | discriminate].
Qed.

(** X17.  The companion and the runtime agree on the mode: when the
    runtime caches the eye info the companion reads, and its flag
    [m_useParallelProjection] is the negated [steamvr_use_native_fov]
    value the companion reads, the status reports the parallel projection
    exactly when [updateEyeInfo] applies the correction, and both compute
    the same canting angle. *)
Theorem getRuntimeStatus_agrees_with_runtime (svc : CompanionService)
    (rt : OpenXrRuntime) (status : RuntimeStatus) :
  let l := snd (c_getEyeRenderInfo_Left svc) in
  let r := snd (c_getEyeRenderInfo_Right svc) in
  getRuntimeStatus svc = Some status ->
  m_cachedEyeInfo rt = mkStereo l r ->
  m_useParallelProjection rt =
    useParallelProjectionFromConfig (c_steamvr_use_native_fov svc) ->
  m_cantingAngle (updateEyeInfo rt) = companionCantingAngle l r /\
  useParallelProjection status = parallelProjectionActive (updateEyeInfo rt).
Proof.
  intros l r Hs Heyes Hflag.
  pose proof (getRuntimeStatus_run svc) as Hrun. cbv zeta in Hrun.
  rewrite Hrun in Hs. clear Hrun.
  destruct (companionAnswers svc); [|discriminate Hs].
  injection Hs as <-. cbn [useParallelProjection].
  unfold parallelProjectionActive.
  rewrite updateEyeInfo_cantingAngle, (proj2 (proj2 (updateEyeInfo_flags rt))).
  rewrite Heyes, Hflag.
  unfold cantingAngleOf, companionCantingAngle, selectParallelProjection,
    useParallelProjectionFromConfig. cbn [sget view0 view1].
  split; [reflexivity | apply andb_comm].
Qed.

End StatusFacts.

(* ===================================================================== *)
(** ** The calls in sequence *)
(* ===================================================================== *)

Section SequenceFacts.
Context {FO : FloatOps} {PH : PvrHeaders}.

(** [m_systemCreated] after a call: set before, or the call succeeded. *)
Lemma created_after (svc : PvrService) (instance : XrInstance)
    (getInfo : XrSystemGetInfo) (rt : OpenXrRuntime) :
  m_systemCreated (snd (xrGetSystem svc instance getInfo rt)) =
  m_systemCreated rt || succeeded (fst (fst (xrGetSystem svc instance getInfo rt))).
Proof.
  pose proof (xrGetSystem_run svc instance getInfo rt) as Hrun. cbv zeta in Hrun.
  rewrite Hrun. clear Hrun.
  repeat match goal with
         | |- context [if ?c then _ else _] =>
             lazymatch c with
             | context [if _ then _ else _] => fail
             | _ => destruct c
             end
         end; cbn [fst snd succeeded];
    rewrite ?orb_false_r, ?orb_true_r; try reflexivity.
  rewrite (proj1 (updateEyeInfo_frame _)). reflexivity.
Qed.

Lemma instance_flag_after (svc : PvrService) (instance : XrInstance)
    (getInfo : XrSystemGetInfo) (rt : OpenXrRuntime) :
  m_instanceCreated (snd (xrGetSystem svc instance getInfo rt)) = m_instanceCreated rt.
Proof.
  pose proof (xrGetSystem_run svc instance getInfo rt) as Hrun. cbv zeta in Hrun.
  rewrite Hrun. clear Hrun.
  repeat match goal with
         | |- context [if ?c then _ else _] =>
             lazymatch c with
             | context [if _ then _ else _] => fail
             | _ => destruct c
             end
         end; cbn [snd]; try reflexivity.
  - rewrite (proj1 (proj2 (updateEyeInfo_frame _))). reflexivity.
  - apply (proj1 (acquired_members svc rt)).
Qed.

(** X18.  The system id that a successful [xrGetSystem] stores is the one
    the other calls accept: right after it, [xrGetSystemProperties] with
    that id succeeds and reports the vendor id and the product name the
    device service answered (the name followed by " (aapvr)"), and the
    handles pass the tests of [xrEnumerateEnvironmentBlendModes]. *)
Theorem xrGetSystem_then_properties (svc : PvrService) (instance : XrInstance)
    (getInfo : XrSystemGetInfo) (rt : OpenXrRuntime) (id : XrSystemId)
    (properties : XrSystemProperties) :
  let out := xrGetSystem svc instance getInfo rt in
  let answer := xrGetSystemProperties (snd out) instance id properties in
  fst (fst out) = Return XR_SUCCESS ->
  snd (fst out) = Some id ->
  sp_type properties = XR_TYPE_SYSTEM_PROPERTIES ->
  fst answer = XR_SUCCESS /\
  sp_systemId (snd answer) = id /\
  sp_vendorId (snd answer) = VendorId (snd (pvr_getHmdInfo svc)) /\
  sp_systemName (snd answer) =
    (ProductName (snd (pvr_getHmdInfo svc)) ++ " (aapvr)")%string /\
  validEnumerateArgs (snd out) instance id XR_VIEW_CONFIGURATION_TYPE_PRIMARY_STEREO.
Proof.
  intros out answer Hok Hid Hty. subst answer out.
  assert (Hs : succeeded (fst (fst (xrGetSystem svc instance getInfo rt))) = true)
    by (rewrite Hok; reflexivity).
  pose proof Hs as Hcond. rewrite succeeded_run in Hcond.
  apply andb_true_iff in Hcond as [Hreq _].
  unfold requestAccepted in Hreq.
  apply andb_true_iff in Hreq as [Hreq _].
  apply andb_true_iff in Hreq as [_ Hinst].
  apply andb_true_iff in Hinst as [Hic Hione].
  rewrite (xrGetSystem_success_run svc instance getInfo rt Hs) in *.
  cbn [fst snd] in *. injection Hid as <-.
  destruct (acquired_members svc rt) as (Hi & _).
  assert (Hcreated : m_systemCreated (acquired svc rt) = true) by reflexivity.
  assert (Hinfo : m_cachedHmdInfo (acquired svc rt) = snd (pvr_getHmdInfo svc)).
  { unfold acquired.
    rewrite (proj1 (proj2 (proj2 (set_m_systemCreated_others true _)))).
    rewrite (proj1 (proj2 (proj2 (proj2 (updateEyeInfo_frame _))))). reflexivity. }
  unfold xrGetSystemProperties.
  rewrite Hty, Hi, Hic, Hione, Hcreated, Hinfo. cbn.
  repeat split; try reflexivity.
  - rewrite Hi. exact Hic.
  - apply N.eqb_eq. exact Hione.
Qed.

(** X19.  Until an [xrGetSystem] has succeeded there is no system: on a
    runtime whose [m_systemCreated] is clear, after a call of
    [xrGetSystem] that did not return [XR_SUCCESS],
    [xrGetSystemProperties] and [xrEnumerateEnvironmentBlendModes] still
    answer [XR_ERROR_SYSTEM_INVALID] to a well-typed request on the valid
    instance, whatever system id is passed, and write nothing. *)
Theorem system_calls_refused_after_failed_xrGetSystem (svc : PvrService)
    (getInfo : XrSystemGetInfo) (rt : OpenXrRuntime) (id : XrSystemId)
    (properties : XrSystemProperties) (t : XrViewConfigurationType)
    (capacity count : N) (modes : option (list XrEnvironmentBlendMode)) :
  let out := xrGetSystem svc the_instance getInfo rt in
  m_instanceCreated rt = true ->
  m_systemCreated rt = false ->
  fst (fst out) <> Return XR_SUCCESS ->
  sp_type properties = XR_TYPE_SYSTEM_PROPERTIES ->
  xrGetSystemProperties (snd out) the_instance id properties =
    (XR_ERROR_SYSTEM_INVALID, properties) /\
  xrEnumerateEnvironmentBlendModes (snd out) the_instance id t capacity count modes =
    Some (mkEnumerateResult XR_ERROR_SYSTEM_INVALID count modes).
Proof.
  intros out Hic Hsc Hfail Hty. subst out.
  pose proof (created_after svc the_instance getInfo rt) as Hcreated.
  assert (Hi : m_instanceCreated (snd (xrGetSystem svc the_instance getInfo rt)) = true)
    by (rewrite instance_flag_after; exact Hic).
  assert (Hs : succeeded (fst (fst (xrGetSystem svc the_instance getInfo rt))) = false).
  { destruct (fst (fst (xrGetSystem svc the_instance getInfo rt))) as [[]|e];
      try reflexivity. contradiction Hfail. reflexivity. }
  rewrite Hsc, Hs in Hcreated. cbn in Hcreated.
  unfold xrGetSystemProperties, xrEnumerateEnvironmentBlendModes,
    enumerateBlendModesFrom.
  rewrite Hty, Hi, Hcreated. split; reflexivity.
Qed.

End SequenceFacts.

(* ===================================================================== *)
(** ** The further facts at concrete inputs, over the reals *)
(* ===================================================================== *)

Section MoreRealExamples.
Import RealModel RealSamples.
#[local] Existing Instance ops.
#[local] Existing Instance headers.
Local Open Scope R_scope.



(** X2 at a canted headset with the correction switched off. *)
Lemma updateEyeInfo_native_idempotent_witness :
  updateEyeInfo (updateEyeInfo (runtime q_ahead q_turned false)) =
  updateEyeInfo (runtime q_ahead q_turned false).
Proof.
  apply updateEyeInfo_native_idempotent. reflexivity.
Defined.


Lemma sample_acquisition_succeeds :
  fst (fst (xrGetSystem service_up the_instance getInfo_hmd fresh_runtime)) =
  Return XR_SUCCESS.
Proof.
  assert (Hs : succeeded
                 (fst (fst (xrGetSystem service_up the_instance getInfo_hmd
                              fresh_runtime))) = true)
    by (rewrite succeeded_run; reflexivity).
  destruct (fst (fst (xrGetSystem service_up the_instance getInfo_hmd fresh_runtime)))
    as [[]|e]; try discriminate Hs. reflexivity.
Qed.

(** X4 at a fresh runtime and a service that answers, and at a service
    that cannot be reached. *)
Lemma xrGetSystem_succeeds_iff_witness :
  fst (fst (xrGetSystem service_up the_instance getInfo_hmd fresh_runtime)) =
    Return XR_SUCCESS /\
  deviceAnswers service_down fresh_runtime = false.
Proof.
  split; [|reflexivity].
  apply (proj2 (xrGetSystem_succeeds_iff service_up the_instance getInfo_hmd
                  fresh_runtime)).
  split; reflexivity.
Defined.

(** X5 at a fresh runtime and a service that answers. *)
Lemma xrGetSystem_success_state_witness :
  let out := xrGetSystem service_up the_instance getInfo_hmd fresh_runtime in
  snd (fst out) = Some the_system /\
  m_systemCreated (snd out) = true /\
  m_pvrSession (snd out) = 42%Z /\
  ProductName (m_cachedHmdInfo (snd out)) = "Pimax Crystal"%string.
Proof.
  intros out.
  destruct (xrGetSystem_success_state service_up the_instance getInfo_hmd
              fresh_runtime sample_acquisition_succeeds)
    as (Hid & _ & Hc & _ & Hp & Hh & _).
  subst out. rewrite Hid, Hc, Hp, Hh. repeat split; reflexivity.
Defined.

(** X6 at a request with the wrong type tag. *)
Lemma xrGetSystem_rejects_before_device_witness :
  xrGetSystem service_up the_instance getInfo_wrong_type fresh_runtime =
    (Return XR_ERROR_VALIDATION_FAILURE, None, fresh_runtime) /\
  xrGetSystem service_down the_instance getInfo_wrong_type fresh_runtime =
    xrGetSystem service_up the_instance getInfo_wrong_type fresh_runtime.
Proof.
  exact (xrGetSystem_rejects_before_device service_up service_down the_instance
           getInfo_wrong_type fresh_runtime eq_refl).
Defined.

(** X8 at a runtime that holds a session, against a service that cannot
    be reached. *)
Lemma xrGetSystem_keeps_witness :
  let rt := runtime q_ahead q_turned true in
  let rt' := snd (xrGetSystem service_down the_instance getInfo_hmd rt) in
  m_systemCreated rt' = true /\ m_pvrSession rt' = 42%Z.
Proof.
  intros rt rt'.
  destruct (xrGetSystem_keeps service_down the_instance getInfo_hmd rt)
    as (_ & _ & _ & Hc & _ & Hp).
  split; [apply Hc; reflexivity | apply Hp; discriminate].
Defined.

(** X9 at a fresh runtime and a service that answers. *)
Lemma xrGetSystem_idempotent_witness :
  let out := xrGetSystem service_up the_instance getInfo_hmd fresh_runtime in
  xrGetSystem service_up the_instance getInfo_hmd (snd out) = out.
Proof.
  exact (xrGetSystem_idempotent service_up the_instance getInfo_hmd fresh_runtime
           sample_acquisition_succeeds).
Defined.

(** X10 at a runtime without a system. *)
Lemma xrGetSystemProperties_tests_witness :
  xrGetSystemProperties fresh_runtime the_instance the_system (properties []) =
    (XR_ERROR_SYSTEM_INVALID, properties []) /\
  fst (xrGetSystemProperties (runtime q_ahead q_turned true) the_instance the_system
         (properties [])) = XR_SUCCESS.
Proof.
  destruct (xrGetSystemProperties_tests fresh_runtime the_instance the_system
              (properties [])) as [_ Hrej].
  destruct (Hrej eq_refl) as [Hsame Hcode].
  destruct (xrGetSystemProperties_tests (runtime q_ahead q_turned true) the_instance
              the_system (properties [])) as [Hok _].
  split.
  - rewrite (surjective_pairing (xrGetSystemProperties _ _ _ _)), Hsame, Hcode.
    reflexivity.
  - apply Hok. reflexivity.
Defined.

(** X12 at a chain with an eye-gaze block before two hand-tracking
    blocks, and at a chain with the eye-gaze block only. *)
Lemma xrGetSystemProperties_fills_first_match_witness :
  sp_next (snd (xrGetSystemProperties runtime_hand_tracking the_instance the_system
                  (properties chain_sample))) =
    [eye_gaze_block;
     mkBlock XR_TYPE_SYSTEM_HAND_TRACKING_PROPERTIES_EXT XR_TRUE;
     hand_tracking_block] /\
  sp_next (snd (xrGetSystemProperties runtime_hand_tracking the_instance the_system
                  (properties [eye_gaze_block]))) = [eye_gaze_block].
Proof.
  destruct (xrGetSystemProperties_fills_first_match runtime_hand_tracking the_instance
              the_system (properties chain_sample) eq_refl eq_refl) as [Hfill _].
  destruct (xrGetSystemProperties_fills_first_match runtime_hand_tracking the_instance
              the_system (properties [eye_gaze_block]) eq_refl eq_refl) as [_ Hnone].
  split.
  - exact (Hfill [eye_gaze_block] hand_tracking_block [hand_tracking_block]
             eq_refl eq_refl eq_refl).
  - exact (Hnone eq_refl).
Defined.

(** X13 at a table of two modes, over an array of three cells and over
    an array of one. *)
Lemma copyBlendModes_writes_prefix_witness :
  let table := [XR_ENVIRONMENT_BLEND_MODE_OPAQUE; XR_ENVIRONMENT_BLEND_MODE_ADDITIVE] in
  let a := XR_ENVIRONMENT_BLEND_MODE_ALPHA_BLEND in
  copyBlendModes table 0 2 [a; a; a] = Some (table ++ [a]) /\
  copyBlendModes table 0 2 [a] = None.
Proof.
  intros table a. subst table a. split.
  - apply (proj1 (copyBlendModes_writes_prefix
                    [XR_ENVIRONMENT_BLEND_MODE_OPAQUE; XR_ENVIRONMENT_BLEND_MODE_ADDITIVE]
                    [XR_ENVIRONMENT_BLEND_MODE_ALPHA_BLEND;
                     XR_ENVIRONMENT_BLEND_MODE_ALPHA_BLEND;
                     XR_ENVIRONMENT_BLEND_MODE_ALPHA_BLEND])).
    cbn. lia.
  - apply (proj2 (copyBlendModes_writes_prefix
                    [XR_ENVIRONMENT_BLEND_MODE_OPAQUE; XR_ENVIRONMENT_BLEND_MODE_ADDITIVE]
                    [XR_ENVIRONMENT_BLEND_MODE_ALPHA_BLEND])).
    cbn. lia.
Defined.

(** X14 at a system id that is not 1, and at a valid call with an array
    of no cell. *)
Lemma xrEnumerateEnvironmentBlendModes_outcomes_witness :
  let rt := runtime q_ahead q_turned true in
  let stereo := XR_VIEW_CONFIGURATION_TYPE_PRIMARY_STEREO in
  xrEnumerateEnvironmentBlendModes rt the_instance 2%N stereo 5%N 7%N None =
    Some (mkEnumerateResult XR_ERROR_SYSTEM_INVALID 7 None) /\
  xrEnumerateEnvironmentBlendModes rt the_instance the_system stereo 1%N 7%N (Some []) =
    None.
Proof.
  intros rt stereo. split.
  - apply (proj1 (xrEnumerateEnvironmentBlendModes_outcomes rt the_instance 2%N stereo
                    5%N 7%N None)).
    reflexivity.
  - apply (proj1 (proj2 (xrEnumerateEnvironmentBlendModes_outcomes rt the_instance
                           the_system stereo 1%N 7%N (Some []))) eq_refl).
    split; [discriminate | reflexivity].
Defined.

(** X15 at a table of two modes and an array of three cells. *)
Lemma enumerateBlendModesFrom_fills_witness :
  let table := [XR_ENVIRONMENT_BLEND_MODE_OPAQUE; XR_ENVIRONMENT_BLEND_MODE_ADDITIVE] in
  let a := XR_ENVIRONMENT_BLEND_MODE_ALPHA_BLEND in
  enumerateBlendModesFrom table (runtime q_ahead q_turned true) the_instance the_system
    XR_VIEW_CONFIGURATION_TYPE_PRIMARY_STEREO 3%N 0%N (Some [a; a; a]) =
  Some (mkEnumerateResult XR_SUCCESS 2 (Some (table ++ [a]))).
Proof.
  intros table a. subst table a.
  apply (enumerateBlendModesFrom_fills
           [XR_ENVIRONMENT_BLEND_MODE_OPAQUE; XR_ENVIRONMENT_BLEND_MODE_ADDITIVE]
           (runtime q_ahead q_turned true)
           the_instance the_system XR_VIEW_CONFIGURATION_TYPE_PRIMARY_STEREO
           3%N 0%N
           [XR_ENVIRONMENT_BLEND_MODE_ALPHA_BLEND;
            XR_ENVIRONMENT_BLEND_MODE_ALPHA_BLEND;
            XR_ENVIRONMENT_BLEND_MODE_ALPHA_BLEND]).
  - apply runtime_valid.
  - discriminate.
  - cbv. discriminate.
  - cbn. lia.
Defined.

Lemma companion_sample_answers (v : Z) : companionAnswers (companion_service v) = true.
Proof. reflexivity. Qed.

(** X16 at a service that answers every call. *)
Lemma getRuntimeStatus_status_witness :
  getRuntimeStatus (companion_service 0) <> None /\
  (exists status, getRuntimeStatus (companion_service 0) = Some status /\
     valid status = true /\ fovLevel status = 1%Z /\
     resolutionWidth status = 3840%Z).
Proof.
  destruct (getRuntimeStatus_status (companion_service 0)) as [Hdef Hst].
  pose proof (proj2 Hdef (companion_sample_answers 0)) as Hsome.
  split; [exact Hsome|].
  destruct (getRuntimeStatus (companion_service 0)) as [status|] eqn:Hrun;
    [|contradiction Hsome; reflexivity].
  exists status. split; [reflexivity|].
  destruct (Hst status eq_refl) as (Hv & _).
  split; [exact Hv|].
  pose proof (getRuntimeStatus_run (companion_service 0)) as Hr. cbv zeta in Hr.
  rewrite Hrun, companion_sample_answers in Hr. injection Hr as ->.
  split; reflexivity.
Defined.

(** X17 at a canted headset with the flag clear. *)
Lemma getRuntimeStatus_agrees_with_runtime_witness :
  exists status,
    getRuntimeStatus (companion_service 0) = Some status /\
    useParallelProjection status =
      parallelProjectionActive (updateEyeInfo (runtime q_ahead q_turned true)).
Proof.
  pose proof (getRuntimeStatus_run (companion_service 0)) as Hr. cbv zeta in Hr.
  rewrite companion_sample_answers in Hr.
  eexists. split; [exact Hr|].
  exact (proj2 (getRuntimeStatus_agrees_with_runtime (companion_service 0)
                  (runtime q_ahead q_turned true) _ Hr eq_refl eq_refl)).
Defined.

Lemma sample_acquisition_id :
  snd (fst (xrGetSystem service_up the_instance getInfo_hmd fresh_runtime)) =
  Some the_system.
Proof.
  rewrite xrGetSystem_success_run
    by (rewrite sample_acquisition_succeeds; reflexivity).
  reflexivity.
Qed.

(** X18 at a fresh runtime and a service that answers. *)
Lemma xrGetSystem_then_properties_witness :
  let rt := snd (xrGetSystem service_up the_instance getInfo_hmd fresh_runtime) in
  let answer := xrGetSystemProperties rt the_instance the_system (properties []) in
  fst answer = XR_SUCCESS /\
  sp_systemName (snd answer) = "Pimax Crystal (aapvr)"%string.
Proof.
  intros rt answer.
  destruct (xrGetSystem_then_properties service_up the_instance getInfo_hmd
              fresh_runtime the_system (properties [])
              sample_acquisition_succeeds sample_acquisition_id eq_refl)
    as (Hok & _ & _ & Hname & _).
  split; [exact Hok | exact Hname].
Defined.

Lemma unreachable_outcome :
  xrGetSystem service_down the_instance getInfo_hmd fresh_runtime =
  (Return XR_ERROR_FORM_FACTOR_UNAVAILABLE, None, fresh_runtime).
Proof. reflexivity. Qed.

(** X19 at a fresh runtime whose service cannot be reached. *)
Lemma system_calls_refused_after_failed_xrGetSystem_witness :
  let rt := snd (xrGetSystem service_down the_instance getInfo_hmd fresh_runtime) in
  xrGetSystemProperties rt the_instance the_system (properties []) =
    (XR_ERROR_SYSTEM_INVALID, properties []) /\
  xrEnumerateEnvironmentBlendModes rt the_instance the_system
    XR_VIEW_CONFIGURATION_TYPE_PRIMARY_STEREO 1%N 0%N None =
    Some (mkEnumerateResult XR_ERROR_SYSTEM_INVALID 0 None).
Proof.
  intros rt.
  assert (Hfail : fst (fst (xrGetSystem service_down the_instance getInfo_hmd
                              fresh_runtime)) <> Return XR_SUCCESS)
    by (rewrite unreachable_outcome; discriminate).
  exact (system_calls_refused_after_failed_xrGetSystem service_down getInfo_hmd
           fresh_runtime the_system (properties [])
           XR_VIEW_CONFIGURATION_TYPE_PRIMARY_STEREO 1%N 0%N None
           eq_refl eq_refl Hfail eq_refl).
Defined.

End MoreRealExamples.
